(** * FastTrackML: namespace-scoped authorization, server start-up and the
      aim2 project / tag / param data access, embedded in Rocq.

    Go packages are rendered as modules.  A Go [error] is a value of the
    inductive [Go.error]; a function returning [(T, error)] returns
    [Go.result T].  Tables with a primary key are finite maps, Go maps are
    [gmap]s, slices are lists. *)

From Stdlib Require Import ZArith String Ascii List Lia.
From stdpp Require Import base option list gmap strings fin_maps.

Local Open Scope Z_scope.

(** ** Errors and results *)

Module Go.

(** The error values the modelled code builds or passes on. *)
Inductive error : Type :=
| Opaque (msg : string)
    (* an error produced by a collaborator (driver, ORM, network) *)
| Wrap (cause : error) (msg : string)
    (* eris.Wrap / eris.Wrapf / fmt.Errorf("...: %w") *)
| ApiError (code : string) (message : string)
    (* api.ErrorResponse: a reason code plus a message *)
| ParamConflictError (Message : string).

(** [err.Error()]. *)
Fixpoint Error (e : error) : string :=
  match e with
  | Opaque m => m
  | Wrap c m => m +:+ ": " +:+ Error c
  | ApiError c m => c +:+ ": " +:+ m
  | ParamConflictError m => m
  end.

Inductive result (A : Type) : Type :=
| Ok (a : A)
| Err (e : error).
Arguments Ok {A} a.
Arguments Err {A} e.

Definition bind {A B} (r : result A) (k : A -> result B) : result B :=
  match r with
  | Ok a => k a
  | Err e => Err e
  end.

(** [if err != nil { return nil, eris.Wrap(err, msg) }]. *)
Definition wrapping {A} (msg : string) (r : result A) : result A :=
  match r with
  | Ok a => Ok a
  | Err e => Err (Wrap e msg)
  end.

Definition is_ok {A} (r : result A) : bool :=
  match r with Ok _ => true | Err _ => false end.

Definition is_err {A} (r : result A) : bool := negb (is_ok r).

(** 64-bit two's complement wrap-around ([int64], [time.Duration]). *)
Definition wrap64 (z : Z) : Z := (z + 2 ^ 63) mod 2 ^ 64 - 2 ^ 63.

End Go.

Notation "'do' x <- r ; k" := (Go.bind r (fun x => k))
  (at level 10, x name, r at level 100, k at level 200).

(** ** pkg/common/api: error responses *)

Module api.

Definition ErrorCodeInternalError : string := "INTERNAL_ERROR".
Definition ErrorCodeResourceDoesNotExist : string := "RESOURCE_DOES_NOT_EXIST".

(** [api.NewInternalError(format, args...)]; the caller passes the
    formatted message. *)
Definition NewInternalError (message : string) : Go.error :=
  Go.ApiError ErrorCodeInternalError message.

Definition NewResourceDoesNotExistError (message : string) : Go.error :=
  Go.ApiError ErrorCodeResourceDoesNotExist message.

End api.

(** ** pkg/api/aim2/dao/repositories/tag.go *)

Module TagRepository.

Record Tag : Type := mkTag {
  Key : string;
  Value : string;
  RunID : string
}.

(** The part of the database the repository reads: the rows of the tags
    table, and whether the connection currently fails a query. *)
Record DB : Type := mkDB {
  tags : list Tag;
  fault : option Go.error
}.

(** [r.GetDB().WithContext(ctx).Find(&tags)]: all rows, or the error. *)
Definition Find (db : DB) : Go.result (list Tag) :=
  match fault db with
  | Some e => Go.Err e
  | None => Go.Ok (tags db)
  end.

(** [GetTagsByNamespace]: the rows are fetched into a local and the empty
    slice literal is returned. *)
Definition GetTagsByNamespace (db : DB) (namespaceID : N) : Go.result (list Tag) :=
  match Find db with
  | Go.Err err => Go.Err err
  | Go.Ok tags => Go.Ok []
  end.

End TagRepository.

(** ** The params repository (pkg/api/mlflow/dao/repositories) *)

Module ParamRepository.

Record Param : Type := mkParam {
  Key : string;
  Value : string;
  RunID : string
}.

(** [paramConflict]: one row of the conflict query. *)
Record paramConflict : Type := mkConflict {
  cRunID : string;
  cKey : string;
  OldValue : string;
  NewValue : string
}.

Definition conflictString (pc : paramConflict) : string :=
  "{run_id: " +:+ cRunID pc +:+ ", key: " +:+ cKey pc +:+ ", old_value: "
  +:+ OldValue pc +:+ ", new_value: " +:+ NewValue pc +:+ "}".

(** [fmt.Sprintf("%v", conflicts)] for a slice of Stringers. *)
Definition conflictsString (l : list paramConflict) : string :=
  "[" +:+ String.concat " " (map conflictString l) +:+ "]".

(** The params table has primary key (run_uuid, key): a finite map from
    that pair to the value column. *)
Abbreviation table := (gmap (string * string) string).

Definition pk (p : Param) : string * string := (RunID p, Key p).

(** A gorm handle on the database: the table it sees, its own
    RowsAffected counter, the error the driver raises on the INSERT
    statement for a given batch of rows (too many bind parameters, a run
    that does not exist, a lost connection), and the error it raises on
    the conflict query. *)
Record DB : Type := mkDB {
  params : table;
  RowsAffected : Z;
  insertFault : list Param -> option Go.error;
  queryFault : option Go.error
}.

Definition setTable (db : DB) (t : table) (n : Z) : DB :=
  {| params := t; RowsAffected := n;
     insertFault := insertFault db; queryFault := queryFault db |}.

(** One row of INSERT ... ON CONFLICT (run_uuid, key) DO NOTHING: a row
    whose key is taken is skipped, otherwise it is stored and counted. *)
Definition insertOrIgnore (acc : table * Z) (p : Param) : table * Z :=
  match acc.1 !! pk p with
  | Some _ => acc
  | None => (<[pk p := Value p]> acc.1, acc.2 + 1)
  end.

(** The slices [params[i:i+batchSize]] that CreateInBatches sends as one
    statement each; [fuel] bounds the number of loop iterations. *)
Fixpoint batches (fuel : nat) (batchSize : nat) (l : list Param) : list (list Param) :=
  match fuel with
  | O => []
  | S fuel' =>
      match l with
      | [] => []
      | _ => take batchSize l :: batches fuel' batchSize (drop batchSize l)
      end
  end.

(** One INSERT statement for one batch. *)
Definition insertBatch (acc : table * Z) (batch : list Param) : table * Z :=
  fold_left insertOrIgnore batch acc.

(** The loop of CreateInBatches: one statement per batch, in order; the
    first statement the driver refuses ends the loop with its error. *)
Fixpoint runBatches (fault : list Param -> option Go.error) (bs : list (list Param))
  (acc : table * Z) : Go.result (table * Z) :=
  match bs with
  | [] => Go.Ok acc
  | b :: bs' =>
      match fault b with
      | Some e => Go.Err e
      | None => runBatches fault bs' (insertBatch acc b)
      end
  end.

(** [tx.WithContext(ctx).Clauses(OnConflict{DoNothing})
      .CreateInBatches(params, batchSize)]: the statements run on a handle
    derived from [tx]; that handle is returned, with the rows stored and
    the number of rows the statements affected. *)
Definition CreateInBatches (tx : DB) (batchSize : nat) (ps : list Param)
  : Go.result DB :=
  match runBatches (insertFault tx) (batches (length ps) batchSize ps) (params tx, 0) with
  | Go.Err e => Go.Err e
  | Go.Ok r => Go.Ok (setTable tx r.1 r.2)
  end.

(** The join of the conflict query for one input row: the stored row with
    the same (run_uuid, key), kept when its value differs. *)
Definition conflictOf (t : table) (p : Param) : option paramConflict :=
  match t !! pk p with
  | Some old =>
      if decide (Value p = old) then None
      else Some {| cRunID := RunID p; cKey := Key p; OldValue := old; NewValue := Value p |}
  | None => None
  end.

(** [findConflictingParams]. *)
Definition findConflictingParams (tx : DB) (ps : list Param)
  : Go.result (list paramConflict) :=
  match queryFault tx with
  | Some e => Go.Err (Go.Wrap e "error fetching params from db")
  | None => Go.Ok (omap (conflictOf (params tx)) ps)
  end.

(** [db.Begin()]: the handle of a transaction is a new session on the
    same data; its RowsAffected counter starts at zero. *)
Definition Begin (db : DB) : DB := setTable db (params db) 0.

(** [db.Transaction(fc)]: [fc] runs on the handle of a new transaction;
    when it returns nil the rows it left are committed, otherwise the
    transaction is rolled back and the database is as before.  The
    caller's handle keeps its own counter. *)
Definition Transaction (db : DB) (fc : DB -> DB * option Go.error)
  : DB * option Go.error :=
  let '(tx, err) := fc (Begin db) in
  match err with
  | None => (setTable db (params tx) (RowsAffected db), None)
  | Some e => (db, Some e)
  end.

(** The function literal passed to [Transaction] in [CreateBatch].  The
    insert runs on a handle derived from [tx]; afterwards [tx] sees the
    rows stored in the transaction, while [tx.RowsAffected] is still the
    counter of [tx] itself. *)
Definition createBatchBody (batchSize : nat) (ps : list Param) (tx : DB)
  : DB * option Go.error :=
  match CreateInBatches tx batchSize ps with
  | Go.Err err => (tx, Some (Go.Wrap err "error creating params in batch"))
  | Go.Ok statement =>
      let tx := setTable tx (params statement) (RowsAffected tx) in
      if decide (RowsAffected tx = Z.of_nat (length ps)) then (tx, None)
      else
        match findConflictingParams tx ps with
        | Go.Err err => (tx, Some (Go.Wrap err "error checking for conflicting params"))
        | Go.Ok conflictingParams =>
            if decide (0 < length conflictingParams)%nat then
              (tx, Some (Go.ParamConflictError
                           ("conflicting params found: " +:+ conflictsString conflictingParams)))
            else (tx, None)
        end
  end.

(** [CreateBatch]: the database after the call and the returned error. *)
Definition CreateBatch (db : DB) (batchSize : nat) (ps : list Param)
  : DB * option Go.error :=
  Transaction db (createBatchBody batchSize ps).

(** The database a committed call leaves, on the caller's handle. *)
Definition committed (db : DB) (acc : table * Z) : DB :=
  setTable db acc.1 (RowsAffected db).

(** The driver accepts every INSERT statement the call sends. *)
Definition insertAccepted (db : DB) (batchSize : nat) (ps : list Param) : Prop :=
  forall batch, In batch (batches (length ps) batchSize ps) -> insertFault db batch = None.

(** Some input row meets a row stored before the call that has the same
    (run_uuid, key) and another value. *)
Definition conflictsWithTable (t : table) (ps : list Param) : Prop :=
  exists p old, In p ps /\ t !! pk p = Some old /\ old <> Value p.

(** Two input rows share (run_uuid, key) and differ in value. *)
Definition conflictsWithinBatch (ps : list Param) : Prop :=
  exists p q, In p ps /\ In q ps /\ pk p = pk q /\ Value p <> Value q.

Definition isParamConflict (err : option Go.error) : Prop :=
  exists msg, err = Some (Go.ParamConflictError msg).

End ParamRepository.

(** ** pkg/api/aim2/services/project/service.go *)

Module Project.

(** [models.LifecycleStage] and [models.Status] are string types compared
    against constants only. *)
Inductive LifecycleStage : Type := LifecycleStageActive | LifecycleStageDeleted.
Inductive Status : Type :=
  StatusRunning | StatusScheduled | StatusFinished | StatusFailed | StatusKilled.

#[global] Instance LifecycleStage_eq_dec : EqDecision LifecycleStage.
Proof. solve_decision. Defined.
#[global] Instance Status_eq_dec : EqDecision Status.
Proof. solve_decision. Defined.

(** The fields of [models.Run] the service reads; [StartTime] is the
    [Int64] of the nullable column (milliseconds since the epoch). *)
Record Run : Type := mkRun {
  ID : string;
  RunStatus : Status;
  RunLifecycleStage : LifecycleStage;
  StartTime : Z
}.

Record ProjectActivity : Type := mkProjectActivity {
  NumRuns : Z;
  ActivityMap : gmap string Z;
  NumActiveRuns : Z;
  NumExperiments : Z;
  NumArchivedRuns : Z
}.

Record GetProjectParamsRequest : Type := mkRequest {
  Sequences : list string;
  ExcludeParams : bool;
  ExperimentNames : list string
}.

(** A metric key with its (JSON) context. *)
Record MetricKeyAndContext : Type := mkMetric {
  MetricKey : string;
  MetricContext : string
}.

Record ProjectParams : Type := mkProjectParams {
  Metrics : list MetricKeyAndContext;
  ParamKeys : list string;
  TagKeys : list string
}.

(** The repository calls a service method can make. *)
Inductive Call : Type :=
| RunGetByNamespaceID (namespaceID : N)
| ExperimentGetCountOfActiveExperiments (namespaceID : N)
| ParamGetParamKeysByParameters (namespaceID : N) (experimentNames : list string)
| TagGetTagKeysByParameters (namespaceID : N) (experimentNames : list string)
| MetricGetMetricKeysAndContextsByExperiments (namespaceID : N) (experimentNames : list string).

(** A service method returns its result together with the repository
    calls it performed, in order. *)
Definition Traced (A : Type) : Type := list Call * Go.result A.

Definition ret {A} (a : A) : Traced A := ([], Go.Ok a).
Definition fail {A} (e : Go.error) : Traced A := ([], Go.Err e).

Definition bind {A B} (m : Traced A) (k : A -> Traced B) : Traced B :=
  match m with
  | (log, Go.Err e) => (log, Go.Err e)
  | (log, Go.Ok a) => let '(log', r) := k a in (log ++ log', r)
  end.

(** Performing a repository call whose answer is [r]. *)
Definition perform {A} (c : Call) (r : Go.result A) : Traced A := ([c], r).

(** [x, err := call; if err != nil { return nil, mk(err) }]. *)
Definition orFail {A} (mk : Go.error -> Go.error) (m : Traced A) : Traced A :=
  match m with
  | (log, Go.Err e) => (log, Go.Err (mk e))
  | ok => ok
  end.

Notation "'exec' x <~ m ; k" := (bind m (fun x => k))
  (at level 10, x name, m at level 100, k at level 200).

(** The repositories the service holds, as their method tables. *)
Record Service : Type := mkService {
  runRepository_GetByNamespaceID : N -> Go.result (list Run);
  experimentRepository_GetCountOfActiveExperiments : N -> Go.result Z;
  paramRepository_GetParamKeysByParameters : N -> list string -> Go.result (list string);
  tagRepository_GetTagKeysByParameters : N -> list string -> Go.result (list string);
  metricRepository_GetMetricKeysAndContextsByExperiments :
    N -> list string -> Go.result (list MetricKeyAndContext);
  liveUpdatesEnabled : bool
}.

Section Activity.

(** [t.Format("2006-01-02T15:00:00")] for the instant [t] given in
    nanoseconds since the epoch.  [time.UnixMilli] yields a time in the
    server's local zone, so the rendering is a parameter. *)
Variable Format : Z -> string.

(** [time.UnixMilli(ms).Add(time.Duration(-tzOffset) * time.Minute)
      .Format("2006-01-02T15:00:00")]. *)
Definition activityKey (startTime tzOffset : Z) : string :=
  Format (startTime * 1000000 + Go.wrap64 (Go.wrap64 (- tzOffset) * 60000000000)).

(** The loop state: [activity], [numActiveRuns], [numArchivedRuns]. *)
Record Counters : Type := mkCounters {
  activity : gmap string Z;
  numActiveRuns : Z;
  numArchivedRuns : Z
}.

(** [activity[key] += 1] on a Go map: a missing key reads as zero. *)
Definition increment (key : string) (m : gmap string Z) : gmap string Z :=
  <[key := default 0 (m !! key) + 1]> m.

(** One iteration of the loop over [runs]. *)
Definition countRun (tzOffset : Z) (st : Counters) (run : Run) : Counters :=
  let st' :=
    if decide (RunLifecycleStage run = LifecycleStageDeleted) then
      {| activity := activity st; numActiveRuns := numActiveRuns st;
         numArchivedRuns := numArchivedRuns st + 1 |}
    else if decide (RunStatus run = StatusRunning) then
      {| activity := activity st; numActiveRuns := numActiveRuns st + 1;
         numArchivedRuns := numArchivedRuns st |}
    else st in
  {| activity := increment (activityKey (StartTime run) tzOffset) (activity st');
     numActiveRuns := numActiveRuns st';
     numArchivedRuns := numArchivedRuns st' |}.

Definition countRuns (tzOffset : Z) (runs : list Run) : Counters :=
  fold_left (countRun tzOffset) runs
    {| activity := ∅; numActiveRuns := 0; numArchivedRuns := 0 |}.

(** [GetProjectActivity]. *)
Definition GetProjectActivity (s : Service) (namespaceID : N) (tzOffset : Z)
  : Traced ProjectActivity :=
  exec runs <~ orFail (fun err => api.NewInternalError ("error getting runs: " +:+ Go.Error err))
            (perform (RunGetByNamespaceID namespaceID)
                     (runRepository_GetByNamespaceID s namespaceID)) ;
  let st := countRuns tzOffset runs in
  exec numActiveExperiments <~
    orFail (fun err => api.NewInternalError
                         ("error getting number of active experiments: " +:+ Go.Error err))
      (perform (ExperimentGetCountOfActiveExperiments namespaceID)
               (experimentRepository_GetCountOfActiveExperiments s namespaceID)) ;
  ret {| NumRuns := Z.of_nat (length runs);
         ActivityMap := activity st;
         NumActiveRuns := numActiveRuns st;
         NumExperiments := numActiveExperiments;
         NumArchivedRuns := numArchivedRuns st |}.

End Activity.

Section Params.

(** The request helpers of the package live in files that are not part of
    the sources at hand; the service is read for any pair of them. *)
Variable NormaliseGetProjectParamsRequest : GetProjectParamsRequest -> GetProjectParamsRequest.
Variable ValidateGetProjectsRequest : GetProjectParamsRequest -> option Go.error.

(** [slices.Contains(req.Sequences, "metric")]. *)
Definition wantsMetrics (req : GetProjectParamsRequest) : bool :=
  bool_decide ("metric" ∈ Sequences req).

(** [GetProjectParams]. *)
Definition GetProjectParams (s : Service) (namespaceID : N) (req : GetProjectParamsRequest)
  : Traced ProjectParams :=
  let req := NormaliseGetProjectParamsRequest req in
  match ValidateGetProjectsRequest req with
  | Some err => fail err
  | None =>
      let projectParams := {| Metrics := []; ParamKeys := []; TagKeys := [] |} in
      exec projectParams <~
        (if negb (ExcludeParams req) then
           exec paramKeys <~
             orFail (fun err => api.NewInternalError ("error getting param keys: " +:+ Go.Error err))
               (perform (ParamGetParamKeysByParameters namespaceID (ExperimentNames req))
                  (paramRepository_GetParamKeysByParameters s namespaceID (ExperimentNames req))) ;
           exec tagKeys <~
             orFail (fun err => api.NewInternalError ("error getting tag keys: " +:+ Go.Error err))
               (perform (TagGetTagKeysByParameters namespaceID (ExperimentNames req))
                  (tagRepository_GetTagKeysByParameters s namespaceID (ExperimentNames req))) ;
           ret {| Metrics := Metrics projectParams; ParamKeys := paramKeys; TagKeys := tagKeys |}
         else ret projectParams) ;
      exec projectParams <~
        (if wantsMetrics req then
           exec metrics <~
             orFail (fun err => api.NewInternalError ("error getting metrics: " +:+ Go.Error err))
               (perform (MetricGetMetricKeysAndContextsByExperiments namespaceID (ExperimentNames req))
                  (metricRepository_GetMetricKeysAndContextsByExperiments s namespaceID
                     (ExperimentNames req))) ;
           ret {| Metrics := metrics; ParamKeys := ParamKeys projectParams;
                  TagKeys := TagKeys projectParams |}
         else ret projectParams) ;
      ret projectParams
  end.

End Params.

(** Whether a call is a fetch of param keys, tag keys or metric keys. *)
Definition isParamFetch (c : Call) : bool :=
  match c with ParamGetParamKeysByParameters _ _ => true | _ => false end.
Definition isTagFetch (c : Call) : bool :=
  match c with TagGetTagKeysByParameters _ _ => true | _ => false end.
Definition isMetricFetch (c : Call) : bool :=
  match c with MetricGetMetricKeysAndContextsByExperiments _ _ => true | _ => false end.

(** The sum of the values of an activity map. *)
Definition totalActivity (m : gmap string Z) : Z :=
  map_fold (fun _ v acc => v + acc) 0 m.

(** Whether the repository answers the call [c] with an error. *)
Definition callFails (s : Service) (c : Call) : bool :=
  match c with
  | RunGetByNamespaceID ns => Go.is_err (runRepository_GetByNamespaceID s ns)
  | ExperimentGetCountOfActiveExperiments ns =>
      Go.is_err (experimentRepository_GetCountOfActiveExperiments s ns)
  | ParamGetParamKeysByParameters ns names =>
      Go.is_err (paramRepository_GetParamKeysByParameters s ns names)
  | TagGetTagKeysByParameters ns names =>
      Go.is_err (tagRepository_GetTagKeysByParameters s ns names)
  | MetricGetMetricKeysAndContextsByExperiments ns names =>
      Go.is_err (metricRepository_GetMetricKeysAndContextsByExperiments s ns names)
  end.

(** The result is an internal error of the API. *)
Definition isInternalError {A} (r : Go.result A) : Prop :=
  exists message, r = Go.Err (api.NewInternalError message).

(** A run in the deleted lifecycle stage; a run that is not deleted and
    whose status is running. *)
Definition isArchivedRun (r : Run) : bool :=
  bool_decide (RunLifecycleStage r = LifecycleStageDeleted).
Definition isActiveRun (r : Run) : bool :=
  negb (isArchivedRun r) && bool_decide (RunStatus r = StatusRunning).

(** What the loop over the runs adds to the counters it starts from. *)
Definition countersFrom (st : Counters) (runs : list Run) (st' : Counters) : Prop :=
  totalActivity (activity st') = totalActivity (activity st) + Z.of_nat (length runs)
  /\ numArchivedRuns st' =
       numArchivedRuns st + Z.of_nat (length (List.filter isArchivedRun runs))
  /\ numActiveRuns st' =
       numActiveRuns st + Z.of_nat (length (List.filter isActiveRun runs)).

(** A rendering of the hour bucket in UTC, used to run the service on
    concrete data: "YYYY-MM-DDTHH:00:00". *)
Definition digit (n : Z) : string :=
  String (ascii_of_nat (48 + Z.to_nat (n mod 10))) EmptyString.
Definition pad2 (n : Z) : string := digit (n / 10) +:+ digit n.
Definition pad4 (n : Z) : string := pad2 (n / 100) +:+ pad2 n.

Definition civilFromDays (days : Z) : Z * Z * Z :=
  let z := days + 719468 in
  let era := z / 146097 in
  let doe := z - era * 146097 in
  let yoe := (doe - doe / 1460 + doe / 36524 - doe / 146096) / 365 in
  let doy := doe - (365 * yoe + yoe / 4 - yoe / 100) in
  let mp := (5 * doy + 2) / 153 in
  let d := doy - (153 * mp + 2) / 5 + 1 in
  let m := if mp <? 10 then mp + 3 else mp - 9 in
  let y := yoe + era * 400 + (if m <=? 2 then 1 else 0) in
  (y, m, d).

Definition FormatUTC (nanos : Z) : string :=
  let secs := nanos / 1000000000 in
  let '(y, m, d) := civilFromDays (secs / 86400) in
  pad4 y +:+ "-" +:+ pad2 m +:+ "-" +:+ pad2 d +:+ "T"
  +:+ pad2 (secs mod 86400 / 3600) +:+ ":00:00".

End Project.

(** ** Namespaces and roles: models and cached repositories *)

Module models.

(** [models.Namespace], with the fields the fixtures of the integration
    tests set. *)
Record Namespace : Type := mkNamespace {
  ID : N;
  Code : string;
  Description : string;
  DefaultExperimentID : option Z
}.

#[global] Instance Namespace_eq_dec : EqDecision Namespace.
Proof. solve_decision. Defined.

(** Modelled from the spec: a role (the Role Store is not among the
    sources at hand).  A role has a unique name, the namespace codes it
    grants or the admin mark meaning every namespace, and the users bound
    to it. *)
Record Role : Type := mkRole {
  RoleName : string;
  RoleAdmin : bool;
  RoleNamespaces : list string;
  RoleUsers : list string
}.

End models.

Module repositories.

Import models.

(** Modelled from the spec: the Cached Namespace Repository, whose source
    is not at hand.  It holds a snapshot of the namespace table;
    [GetByCode] answers from the snapshot, with [None] for a code that is
    absent. *)
Definition GetByCode (snapshot : list Namespace) (code : string) : option Namespace :=
  List.find (fun ns => bool_decide (Code ns = code)) snapshot.

Definition GetByID (snapshot : list Namespace) (id : N) : option Namespace :=
  List.find (fun ns => bool_decide (ID ns = id)) snapshot.

(** Modelled from the spec: construction performs a full synchronous load
    of the table and fails if that load fails. *)
Definition NewNamespaceCachedRepository (load : Go.result (list Namespace))
  : Go.result (list Namespace) :=
  match load with
  | Go.Ok rows => Go.Ok rows
  | Go.Err e => Go.Err e
  end.

(** Modelled from the spec: the Cached Role Repository follows the same
    load discipline as the namespace one. *)
Definition NewRoleCachedRepository (load : Go.result (list Role))
  : Go.result (list Role) :=
  match load with
  | Go.Ok rows => Go.Ok rows
  | Go.Err e => Go.Err e
  end.

(** Modelled from the spec: the roles a user is bound to; [IsAdmin] holds
    when any of them is an admin role; the permitted codes are the union
    over the user's roles. *)
Definition rolesOf (roles : list Role) (user : string) : list Role :=
  List.filter (fun r => bool_decide (user ∈ RoleUsers r)) roles.

Definition IsAdmin (roles : list Role) (user : string) : bool :=
  existsb RoleAdmin (rolesOf roles user).

Definition GetPermittedNamespaces (roles : list Role) (user : string) : list string :=
  flat_map RoleNamespaces (rolesOf roles user).

End repositories.

(** ** pkg/common/config/auth: the users file *)

Module auth.

(** [auth.YamlUserConfig], as the integration test writes it. *)
Record YamlUserConfig : Type := mkUser {
  Name : string;
  Roles : list string;
  Password : string
}.

(** [config.Auth.AuthParsedUserPermissions]. *)
Definition UserPermissions : Type := list YamlUserConfig.

(** The fields of [auth.Config] that [createApp] reads.  The bodies of
    [IsAuthTypeOIDC] and [IsAuthTypeUser] are not at hand: their answers
    are recorded as they are. *)
Record Config : Type := mkConfig {
  AuthUsername : string;
  AuthPassword : string;
  IsAuthTypeOIDC : bool;
  IsAuthTypeUser : bool;
  AuthParsedUserPermissions : UserPermissions
}.

(** An OIDC client: the verification of a bearer token, answering the user
    identity of a valid one. *)
Record OIDCClient : Type := mkOIDCClient {
  Verify : string -> option string
}.

End auth.

(** ** pkg/common/middleware *)

Module middleware.

Import models.

(** What a request carries in its Authorization header. *)
Inductive Credentials : Type :=
| NoCredentials
| BasicCredentials (username password : string)
| BearerToken (token : string).

(** What a request addresses: the cookie route, or a path under a
    namespace code. *)
Inductive Target : Type :=
| SetCookiePath (access_token : string)
| NamespacePath (code : string).

Record Request : Type := mkRequest {
  target : Target;
  credentials : Credentials
}.

(** The per-request context the handlers share. *)
Record Ctx : Type := mkCtx {
  request : Request;
  namespace : option Namespace;
  identity : option string
}.

Inductive Response : Type :=
| Served (c : Ctx)
    (* a business handler ran, with the context it was given *)
| Rejected (status : Z) (err : Go.error)
    (* an error payload *)
| Unauthorized
    (* 401 *)
| Redirected (location : string) (cookieName cookieValue : string)
| NotFound.
    (* no route matched *)

(** A handler either passes the request on ([c.Next()]) or answers it. *)
Inductive Step : Type :=
| Next (c : Ctx)
| Reply (r : Response).

(** The snapshots the cached repositories hold when the request arrives. *)
Record Caches : Type := mkCaches {
  namespaces : list Namespace;
  roles : list Role
}.

(** The payload the tests read back:
    "RESOURCE_DOES_NOT_EXIST: unable to find namespace with code: <code>". *)
Definition namespaceNotFound (code : string) : Response :=
  Rejected 404
    (api.NewResourceDoesNotExistError ("unable to find namespace with code: " +:+ code)).

(** The answer of an identity step that finds no namespace attached to
    the context. *)
Definition noNamespaceInContext : Response :=
  Rejected 500 (api.NewInternalError "error getting namespace from context").

(** fiber's [basicauth.New] with the given user table: the credentials
    must be a listed user with its password, otherwise 401. *)
Definition basicauth (Users : list (string * string)) (c : Ctx) : Step :=
  match credentials (request c) with
  | BasicCredentials u p =>
      if bool_decide ((u, p) ∈ Users) then Next c else Reply Unauthorized
  | _ => Reply Unauthorized
  end.

(** The handler of GET /set-cookie/:access_token. *)
Definition setCookie (c : Ctx) : Step :=
  match target (request c) with
  | SetCookiePath token => Reply (Redirected "/" "access_token" token)
  | NamespacePath _ => Next c
  end.

(** Modelled from the spec: [NewNamespaceMiddleware], whose source is not
    at hand.  The namespace code of the request is looked up in the cached
    repository; a miss rejects with "namespace does not exist", a hit
    attaches the namespace to the context. *)
Definition NewNamespaceMiddleware (caches : Caches) (c : Ctx) : Step :=
  match target (request c) with
  | SetCookiePath _ => Next c
  | NamespacePath code =>
      match repositories.GetByCode (namespaces caches) code with
      | None => Reply (namespaceNotFound code)
      | Some ns => Next {| request := request c; namespace := Some ns; identity := identity c |}
      end
  end.

(** Modelled from the spec: the check of a configured user.  A user whose
    roles include "admin" is permitted everywhere; otherwise the role
    "ns:<code>" is needed. *)
Definition hasAdminRole (roles : list string) : bool :=
  bool_decide ("admin" ∈ roles).

Definition grantsNamespace (roles : list string) (code : string) : bool :=
  bool_decide (("ns:" +:+ code) ∈ roles).

Definition permitted (roles : list string) (code : string) : bool :=
  hasAdminRole roles || grantsNamespace roles code.

(** Modelled from the spec: identity resolution of the per-user scheme.
    The identity is the username; the password must match the configured
    one. *)
Definition authenticate (perms : auth.UserPermissions) (cr : Credentials)
  : option auth.YamlUserConfig :=
  match cr with
  | BasicCredentials u p =>
      List.find (fun cfg => bool_decide (auth.Name cfg = u /\ auth.Password cfg = p)) perms
  | _ => None
  end.

(** Modelled from the spec: [NewBasicAuthMiddleware], whose source is not
    at hand.  Bad credentials are answered 401; an authenticated user who
    is not permitted into the resolved namespace gets the same "namespace
    does not exist" payload as a miss. *)
Definition NewBasicAuthMiddleware (perms : auth.UserPermissions) (c : Ctx) : Step :=
  match namespace c with
  | None => Reply noNamespaceInContext
  | Some ns =>
      match authenticate perms (credentials (request c)) with
      | None => Reply Unauthorized
      | Some user =>
          if permitted (auth.Roles user) (Code ns) then
            Next {| request := request c; namespace := namespace c;
                    identity := Some (auth.Name user) |}
          else Reply (namespaceNotFound (Code ns))
      end
  end.

(** Modelled from the spec: [NewOIDCMiddleware], whose source is not at
    hand.  The bearer token is verified; the user it names must be admin
    or have the resolved namespace among the permitted codes. *)
Definition NewOIDCMiddleware (client : auth.OIDCClient) (caches : Caches) (c : Ctx) : Step :=
  match namespace c with
  | None => Reply noNamespaceInContext
  | Some ns =>
      match credentials (request c) with
      | BearerToken token =>
          match auth.Verify client token with
          | None => Reply Unauthorized
          | Some user =>
              if repositories.IsAdmin (roles caches) user
                 || bool_decide (Code ns ∈ repositories.GetPermittedNamespaces (roles caches) user)
              then Next {| request := request c; namespace := namespace c;
                           identity := Some user |}
              else Reply (namespaceNotFound (Code ns))
          end
      | _ => Reply Unauthorized
      end
  end.

End middleware.

(** ** pkg/server/server.go *)

Module server.

Import models.

(** The fields of [config.Config] that the server reads. *)
Record Config : Type := mkConfig {
  DevMode : bool;
  DatabaseReset : bool;
  AimRevert : bool;
  LiveUpdatesEnabled : bool;
  Auth : auth.Config
}.

(** What the collaborators called during start-up answer: [None] or
    [Go.Ok] for success, an error otherwise. *)
Record Env : Type := mkEnv {
  NewArtifactStorageFactory : option Go.error;
  NewDBProvider : option Go.error;
  Reset : option Go.error;
  CheckAndMigrateDB : option Go.error;
  CreateDefaultNamespace : option Go.error;
  CreateDefaultExperiment : option Go.error;
  CreateDefaultMetricContext : option Go.error;
  NewNamespaceListener : option Go.error;
  loadNamespaces : Go.result (list Namespace);
  loadRoles : Go.result (list Role);
  NewOIDCClient : Go.result auth.OIDCClient;
  adminRouterInit : option Go.error;
  chooserRouterInit : option Go.error
}.

(** [if err := f(); err != nil { return nil, eris.Wrap(err, msg) }]. *)
Definition check (msg : string) (outcome : option Go.error) : Go.result unit :=
  match outcome with
  | None => Go.Ok tt
  | Some e => Go.Err (Go.Wrap e msg)
  end.

(** The entries of the fiber stack, in registration order. *)
Inductive Handler : Type :=
| CORS
| BasicAuth (Users : list (string * string))
| SetCookieRoute
| NamespaceMiddleware
| OIDCMiddleware (client : auth.OIDCClient)
| BasicAuthMiddleware (userPermissions : auth.UserPermissions)
| Compress
| Recover
| Logger
| HealthRoute
| VersionRoute
| ApiRoutes (name : string).

(** The application [createApp] returns: its stack, the cached
    repositories it built and whether the notification listener was
    started. *)
Record App : Type := mkApp {
  stack : list Handler;
  namespaceCachedRepository : list Namespace;
  rolesCachedRepository : list Role;
  listening : bool
}.

(** [createDBProvider]. *)
Definition createDBProvider (config : Config) (env : Env) : Go.result unit :=
  do _ <- check "error connecting to DB" (NewDBProvider env);
  do _ <- (if DatabaseReset config then check "error resetting database" (Reset env)
           else Go.Ok tt);
  do _ <- check "error running database migration" (CheckAndMigrateDB env);
  do _ <- check "error creating default namespace" (CreateDefaultNamespace env);
  do _ <- check "error creating default experiment" (CreateDefaultExperiment env);
  do _ <- check "error creating default context" (CreateDefaultMetricContext env);
  Go.Ok tt.

(** The condition under which the shared Basic Auth gate is attached. *)
Definition sharedBasicAuth (a : auth.Config) : bool :=
  negb (bool_decide (auth.AuthUsername a = "")) && negb (bool_decide (auth.AuthPassword a = "")).

(** [createApp]. *)
Definition createApp (config : Config) (env : Env) : Go.result App :=
  let app := if DevMode config then [CORS] else [] in
  do _ <- check "error creating namespace notification listener" (NewNamespaceListener env);
  do namespaceCachedRepository <-
    Go.wrapping "error creating namespace repository"
      (repositories.NewNamespaceCachedRepository (loadNamespaces env));
  do rolesCachedRepository <-
    Go.wrapping "error creating roles repository"
      (repositories.NewRoleCachedRepository (loadRoles env));
  let listening := true in
  let app :=
    if sharedBasicAuth (Auth config) then
      app ++ [BasicAuth [(auth.AuthUsername (Auth config), auth.AuthPassword (Auth config))]]
    else app in
  let app := app ++ [SetCookieRoute] in
  let app := app ++ [NamespaceMiddleware] in
  do app <-
    (if auth.IsAuthTypeOIDC (Auth config) then
       do oidcClient <- Go.wrapping "error creating OIDC client" (NewOIDCClient env);
       Go.Ok (app ++ [OIDCMiddleware oidcClient])
     else if auth.IsAuthTypeUser (Auth config) then
       Go.Ok (app ++ [BasicAuthMiddleware (auth.AuthParsedUserPermissions (Auth config))])
     else Go.Ok app);
  let app := app ++ [Compress] in
  let app := app ++ [Recover] in
  let app := app ++ [Logger] in
  let app := app ++ [HealthRoute] in
  let app := app ++ [VersionRoute] in
  let app := app ++ [ApiRoutes (if AimRevert config then "aim" else "aim2")] in
  let app := app ++ [ApiRoutes "mlflow"] in
  let app := app ++ [ApiRoutes "mlflow-ui"; ApiRoutes "aim-ui"] in
  do _ <- check "error initializing admin routes" (adminRouterInit env);
  let app := app ++ [ApiRoutes "admin"] in
  do _ <- check "error initializing chooser routes" (chooserRouterInit env);
  let app := app ++ [ApiRoutes "chooser"] in
  Go.Ok {| stack := app;
           namespaceCachedRepository := namespaceCachedRepository;
           rolesCachedRepository := rolesCachedRepository;
           listening := listening |}.

(** [NewServer]. *)
Definition NewServer (config : Config) (env : Env) : Go.result App :=
  do _ <- check "error creating artifact storage factory" (NewArtifactStorageFactory env);
  do _ <- createDBProvider config env;
  do app <- Go.wrapping "error creating application" (createApp config env);
  Go.Ok app.

(** What one stack entry does with a request. *)
Definition handle (caches : middleware.Caches) (h : Handler) (c : middleware.Ctx)
  : middleware.Step :=
  match h with
  | CORS | Compress | Recover | Logger => middleware.Next c
  | BasicAuth Users => middleware.basicauth Users c
  | SetCookieRoute => middleware.setCookie c
  | NamespaceMiddleware => middleware.NewNamespaceMiddleware caches c
  | OIDCMiddleware client => middleware.NewOIDCMiddleware client caches c
  | BasicAuthMiddleware perms => middleware.NewBasicAuthMiddleware perms c
  | HealthRoute | VersionRoute => middleware.Next c
  | ApiRoutes _ =>
      match middleware.target (middleware.request c) with
      | middleware.NamespacePath _ => middleware.Reply (middleware.Served c)
      | middleware.SetCookiePath _ => middleware.Next c
      end
  end.

(** fiber walks the stack in registration order until a handler answers. *)
Fixpoint walk (caches : middleware.Caches) (hs : list Handler) (c : middleware.Ctx)
  : middleware.Response :=
  match hs with
  | [] => middleware.NotFound
  | h :: hs' =>
      match handle caches h c with
      | middleware.Next c' => walk caches hs' c'
      | middleware.Reply r => r
      end
  end.

(** The same walk over a part of the stack: the context the part hands
    on, or the answer given inside it. *)
Fixpoint walk_through (caches : middleware.Caches) (hs : list Handler) (c : middleware.Ctx)
  : middleware.Step :=
  match hs with
  | [] => middleware.Next c
  | h :: hs' =>
      match handle caches h c with
      | middleware.Next c' => walk_through caches hs' c'
      | middleware.Reply r => middleware.Reply r
      end
  end.

Definition serve (app : App) (caches : middleware.Caches) (req : middleware.Request)
  : middleware.Response :=
  walk caches (stack app)
    {| middleware.request := req; middleware.namespace := None; middleware.identity := None |}.

(** The parts of the stack [createApp] registers: what comes before the
    namespace step, the identity step chosen by the switch, and what
    follows it. *)
Definition gateSteps (config : Config) : list Handler :=
  (if DevMode config then [CORS] else [])
  ++ (if sharedBasicAuth (Auth config) then
        [BasicAuth [(auth.AuthUsername (Auth config), auth.AuthPassword (Auth config))]]
      else [])
  ++ [SetCookieRoute].

Definition identitySteps (config : Config) (env : Env) : list Handler :=
  if auth.IsAuthTypeOIDC (Auth config) then
    match NewOIDCClient env with
    | Go.Ok oidcClient => [OIDCMiddleware oidcClient]
    | Go.Err _ => []
    end
  else if auth.IsAuthTypeUser (Auth config) then
    [BasicAuthMiddleware (auth.AuthParsedUserPermissions (Auth config))]
  else [].

Definition serviceSteps (config : Config) : list Handler :=
  [Compress; Recover; Logger; HealthRoute; VersionRoute;
   ApiRoutes (if AimRevert config then "aim" else "aim2");
   ApiRoutes "mlflow"; ApiRoutes "mlflow-ui"; ApiRoutes "aim-ui";
   ApiRoutes "admin"; ApiRoutes "chooser"].

(** Entry [a] is registered before entry [b]. *)
Definition before (a b : Handler) (hs : list Handler) : Prop :=
  exists l1 l2 l3, hs = l1 ++ a :: l2 ++ b :: l3.

(** The steps that resolve the caller's identity. *)
Definition isIdentityStep (h : Handler) : bool :=
  match h with
  | BasicAuth _ | OIDCMiddleware _ | BasicAuthMiddleware _ => true
  | _ => false
  end.

(** The steps that resolve a user identity and check it against the
    namespace: the per-user and the OIDC middleware. *)
Definition resolvesUser (h : Handler) : bool :=
  match h with
  | OIDCMiddleware _ | BasicAuthMiddleware _ => true
  | _ => false
  end.

(** The request passes the shared Basic Auth gate, when one is attached. *)
Definition passesGate (a : auth.Config) (cr : middleware.Credentials) : bool :=
  if sharedBasicAuth a then
    match cr with
    | middleware.BasicCredentials u p =>
        bool_decide (u = auth.AuthUsername a /\ p = auth.AuthPassword a)
    | _ => false
    end
  else true.

End server.

(** ** The administrative namespace service *)

Module namespace.

Import models.

(** Modelled from the spec: the namespace create and update operations
    of the administrative service, whose source is not at hand (only the
    integration test of the update is).  The store holds the namespaces
    that are not deleted.  A code must be non-empty and must not be used
    by another namespace of the store; a violation is a
    ConstraintViolation and leaves the store as it was. *)
Inductive ServiceError : Type :=
| NotFound (message : string)
| ConstraintViolation (message : string).

Inductive Outcome : Type :=
| Done (ns : Namespace)
| Failed (e : ServiceError).

Definition codeInvalid : ServiceError := ConstraintViolation "The namespace code is invalid.".
Definition codeInUse : ServiceError := ConstraintViolation "The namespace code is already in use.".

Definition ValidateNamespace (code : string) : bool := negb (bool_decide (code = "")).

(** Some namespace of the store other than [self] carries [code]. *)
Definition usedByAnother (store : list Namespace) (self : option N) (code : string) : bool :=
  existsb (fun ns => bool_decide (Code ns = code) && negb (bool_decide (Some (ID ns) = self)))
          store.

Definition nextID (store : list Namespace) : N :=
  (1 + fold_right N.max 0 (map ID store))%N.

Definition CreateNamespace (store : list Namespace) (code description : string)
  : list Namespace * Outcome :=
  if negb (ValidateNamespace code) then (store, Failed codeInvalid)
  else if usedByAnother store None code then (store, Failed codeInUse)
  else
    let ns := {| ID := nextID store; Code := code; Description := description;
                 DefaultExperimentID := None |} in
    (store ++ [ns], Done ns).

Definition UpdateNamespace (store : list Namespace) (id : N) (code description : string)
  : list Namespace * Outcome :=
  match repositories.GetByID store id with
  | None => (store, Failed (NotFound "namespace not found by id"))
  | Some ns =>
      if negb (ValidateNamespace code) then (store, Failed codeInvalid)
      else if usedByAnother store (Some id) code then (store, Failed codeInUse)
      else
        let ns' := {| ID := ID ns; Code := code; Description := description;
                      DefaultExperimentID := DefaultExperimentID ns |} in
        (map (fun n => if bool_decide (ID n = id) then ns' else n) store, Done ns')
  end.

Definition isConstraintViolation (o : Outcome) : Prop :=
  exists message, o = Failed (ConstraintViolation message).

End namespace.

(** ** Go's strings package: the two tests the server uses *)

Module gostrings.

(** [strings.HasPrefix(s, prefix)]:
    [len(s) >= len(prefix) && s[:len(prefix)] == prefix]. *)
Definition HasPrefix (s prefix : string) : bool :=
  (String.length prefix <=? String.length s)%nat
  && String.eqb (String.substring 0 (String.length prefix) s) prefix.

(** [strings.HasSuffix(s, suffix)]:
    [len(s) >= len(suffix) && s[len(s)-len(suffix):] == suffix]. *)
Definition HasSuffix (s suffix : string) : bool :=
  (String.length suffix <=? String.length s)%nat
  && String.eqb
       (String.substring (String.length s - String.length suffix) (String.length suffix) s)
       suffix.

End gostrings.

(** ** pkg/server/server.go: the handlers configured inside [createApp] *)

Module fiberapp.

(** The error renderers the application's ErrorHandler chooses between. *)
Inductive Renderer : Type :=
| Aim2ErrorHandler
| MlflowErrorHandler
| DefaultErrorHandler.

(** The [ErrorHandler] of the fiber configuration, as a function of the
    request path. *)
Definition ErrorHandler (p : string) : Renderer :=
  if gostrings.HasPrefix p "/aim" then Aim2ErrorHandler
  else if gostrings.HasPrefix p "/api/2.0/mlflow/"
          || gostrings.HasPrefix p "/ajax-api/2.0/mlflow/"
          || gostrings.HasPrefix p "/mlflow/ajax-api/2.0/mlflow/"
  then MlflowErrorHandler
  else DefaultErrorHandler.

(** The [Next] function of the compress middleware: [true] skips
    compression for the request. *)
Definition compressNext (path : string) : bool :=
  gostrings.HasSuffix path "/metrics/get-histories".

(** The number of entries of a stack that resolve a user identity. *)
Definition userSteps (hs : list server.Handler) : nat :=
  length (List.filter server.resolvesUser hs).

(** A request for the cookie route. *)
Definition cookieRequest (token : string) (cr : middleware.Credentials) : middleware.Request :=
  {| middleware.target := middleware.SetCookiePath token; middleware.credentials := cr |}.

End fiberapp.

(** ** pkg/api/aim2/dao/repositories/tag.go: the tag key query *)

Module TagKeys.

(** The columns of the runs and experiments tables the query names. *)
Record RunRow : Type := mkRunRow {
  run_uuid : string;
  run_experiment_id : Z;
  lifecycle_stage : Project.LifecycleStage
}.

Record ExperimentRow : Type := mkExperimentRow {
  experiment_id : Z;
  namespace_id : N;
  name : string
}.

Record DB : Type := mkDB {
  tags : list TagRepository.Tag;
  runs : list RunRow;
  experiments : list ExperimentRow;
  fault : option Go.error
}.

(** JOIN runs USING(run_uuid). *)
Definition runsOf (db : DB) (t : TagRepository.Tag) : list RunRow :=
  List.filter (fun r => bool_decide (run_uuid r = TagRepository.RunID t)) (runs db).

(** INNER JOIN experiments ON experiments.experiment_id = runs.experiment_id
    AND experiments.namespace_id = ?. *)
Definition experimentsOf (db : DB) (namespaceID : N) (r : RunRow) : list ExperimentRow :=
  List.filter (fun e => bool_decide (experiment_id e = run_experiment_id r)
                        && bool_decide (namespace_id e = namespaceID))
              (experiments db).

(** WHERE runs.lifecycle_stage = 'active', and, only when experiment
    names were given, AND experiments.name IN (names). *)
Definition selected (experimentNames : list string) (r : RunRow) (e : ExperimentRow) : bool :=
  bool_decide (lifecycle_stage r = Project.LifecycleStageActive)
  && (if decide (length experimentNames = 0%nat) then true
      else bool_decide (name e ∈ experimentNames)).

(** The rows of the query: one per tag, run and experiment that join and
    pass the WHERE clause. *)
Definition rows (db : DB) (namespaceID : N) (experimentNames : list string)
  : list (TagRepository.Tag * RunRow * ExperimentRow) :=
  flat_map
    (fun t =>
       flat_map
         (fun r =>
            flat_map
              (fun e => if selected experimentNames r e then [(t, r, e)] else [])
              (experimentsOf db namespaceID r))
         (runsOf db t))
    (tags db).

(** [GetTagKeysByParameters]: Pluck("Key") over the rows. *)
Definition GetTagKeysByParameters (db : DB) (namespaceID : N) (experimentNames : list string)
  : Go.result (list string) :=
  match fault db with
  | Some err => Go.Err (Go.Wrap err "error getting tag keys by parameters")
  | None =>
      Go.Ok (map (fun row => TagRepository.Key row.1.1) (rows db namespaceID experimentNames))
  end.

(** A tag whose run is active and belongs to an experiment of the
    namespace that passes the name filter. *)
Definition qualifies (db : DB) (namespaceID : N) (experimentNames : list string)
  (t : TagRepository.Tag) : Prop :=
  exists r e,
    In r (runs db) /\ In e (experiments db)
    /\ run_uuid r = TagRepository.RunID t
    /\ experiment_id e = run_experiment_id r
    /\ namespace_id e = namespaceID
    /\ lifecycle_stage r = Project.LifecycleStageActive
    /\ (experimentNames = [] \/ name e ∈ experimentNames).

End TagKeys.

(** ** Measures used to state the behaviour of the project service *)

Module ProjectFacts.

(** The number of runs of [runs] that fall into the bucket [key]. *)
Definition bucketSize (Format : Z -> string) (tzOffset : Z) (key : string)
  (runs : list Project.Run) : Z :=
  Z.of_nat (length (List.filter
                      (fun r => bool_decide
                                  (Project.activityKey Format (Project.StartTime r) tzOffset = key))
                      runs)).

(** The namespace a repository call is made for. *)
Definition callNamespace (c : Project.Call) : N :=
  match c with
  | Project.RunGetByNamespaceID ns
  | Project.ExperimentGetCountOfActiveExperiments ns
  | Project.ParamGetParamKeysByParameters ns _
  | Project.TagGetTagKeysByParameters ns _
  | Project.MetricGetMetricKeysAndContextsByExperiments ns _ => ns
  end.

(** The fetches [GetProjectParams] makes when none fails, in order. *)
Definition plannedFetches (namespaceID : N) (req : Project.GetProjectParamsRequest)
  : list Project.Call :=
  (if Project.ExcludeParams req then []
   else [Project.ParamGetParamKeysByParameters namespaceID (Project.ExperimentNames req);
         Project.TagGetTagKeysByParameters namespaceID (Project.ExperimentNames req)])
  ++ (if Project.wantsMetrics req then
        [Project.MetricGetMetricKeysAndContextsByExperiments namespaceID
           (Project.ExperimentNames req)]
      else []).

End ProjectFacts.

(** ** Concrete data used to run the embedding *)

Definition sampleRuns : list Project.Run :=
  [ Project.mkRun "r1" Project.StatusRunning Project.LifecycleStageDeleted 1700000000000;
    Project.mkRun "r2" Project.StatusFinished Project.LifecycleStageDeleted 1700000100000;
    Project.mkRun "r3" Project.StatusRunning Project.LifecycleStageActive 1700003600000;
    Project.mkRun "r4" Project.StatusFinished Project.LifecycleStageActive 1700003700000 ].

Definition sampleService : Project.Service :=
  {| Project.runRepository_GetByNamespaceID := fun _ => Go.Ok sampleRuns;
     Project.experimentRepository_GetCountOfActiveExperiments := fun _ => Go.Ok 2;
     Project.paramRepository_GetParamKeysByParameters := fun _ _ => Go.Ok ["lr"];
     Project.tagRepository_GetTagKeysByParameters := fun _ _ => Go.Ok ["team"];
     Project.metricRepository_GetMetricKeysAndContextsByExperiments :=
       fun _ _ => Go.Ok [Project.mkMetric "loss" "{}"];
     Project.liveUpdatesEnabled := false |}.

(** Request helpers to run [GetProjectParams] with: the identity
    normaliser and a validator that accepts every request. *)
Definition keepRequest (req : Project.GetProjectParamsRequest) := req.
Definition acceptRequest (req : Project.GetProjectParamsRequest) : option Go.error := None.

Definition excludingRequest : Project.GetProjectParamsRequest :=
  {| Project.Sequences := ["metric"]; Project.ExcludeParams := true;
     Project.ExperimentNames := [] |}.

(** A params table with one stored row, and batches to insert. *)
Definition emptyParamsDB : ParamRepository.DB :=
  {| ParamRepository.params := ∅; ParamRepository.RowsAffected := 0;
     ParamRepository.insertFault := fun _ => None; ParamRepository.queryFault := None |}.

Definition storedParamsDB : ParamRepository.DB :=
  {| ParamRepository.params := {[ ("run1", "lr") := "0.1" ]};
     ParamRepository.RowsAffected := 0;
     ParamRepository.insertFault := fun _ => None; ParamRepository.queryFault := None |}.

Definition clashingBatch : list ParamRepository.Param :=
  [ ParamRepository.mkParam "lr" "0.1" "run1"; ParamRepository.mkParam "lr" "0.2" "run1" ].

Definition duplicateBatch : list ParamRepository.Param :=
  [ ParamRepository.mkParam "lr" "0.1" "run1"; ParamRepository.mkParam "depth" "3" "run1" ].

(** The namespaces and users of the integration test of the per-user
    scheme, and a start-up in which every collaborator answers. *)
Definition namespace1 : models.Namespace := models.mkNamespace 2 "namespace1" "Test namespace 1" (Some 0).
Definition namespace2 : models.Namespace := models.mkNamespace 3 "namespace2" "Test namespace 2" (Some 0).
Definition namespace3 : models.Namespace := models.mkNamespace 4 "namespace3" "Test namespace 3" (Some 0).
Definition defaultNamespace : models.Namespace := models.mkNamespace 1 "default" "" (Some 0).

Definition testUsers : auth.UserPermissions :=
  [ auth.mkUser "user1" ["ns:namespace1"; "ns:namespace2"] "user1password";
    auth.mkUser "user2" ["ns:namespace2"; "ns:namespace3"] "user2password";
    auth.mkUser "user3" ["admin"] "user3password" ].

Definition testRoles : list models.Role :=
  [ models.mkRole "team-a" false ["namespace1"; "namespace2"] ["alice"];
    models.mkRole "admin" true [] ["carol"] ].

Definition testOIDCClient : auth.OIDCClient :=
  {| auth.Verify := fun token =>
       if bool_decide (token = "alice-token") then Some "alice"
       else if bool_decide (token = "carol-token") then Some "carol"
       else None |}.

Definition healthyEnv : server.Env :=
  {| server.NewArtifactStorageFactory := None;
     server.NewDBProvider := None;
     server.Reset := None;
     server.CheckAndMigrateDB := None;
     server.CreateDefaultNamespace := None;
     server.CreateDefaultExperiment := None;
     server.CreateDefaultMetricContext := None;
     server.NewNamespaceListener := None;
     server.loadNamespaces := Go.Ok [defaultNamespace; namespace1; namespace2; namespace3];
     server.loadRoles := Go.Ok testRoles;
     server.NewOIDCClient := Go.Ok testOIDCClient;
     server.adminRouterInit := None;
     server.chooserRouterInit := None |}.

(** The same start-up with a notification listener that cannot be created. *)
Definition deafEnv : server.Env :=
  {| server.NewArtifactStorageFactory := None;
     server.NewDBProvider := None;
     server.Reset := None;
     server.CheckAndMigrateDB := None;
     server.CreateDefaultNamespace := None;
     server.CreateDefaultExperiment := None;
     server.CreateDefaultMetricContext := None;
     server.NewNamespaceListener := Some (Go.Opaque "pq: connection refused");
     server.loadNamespaces := Go.Ok [defaultNamespace];
     server.loadRoles := Go.Ok [];
     server.NewOIDCClient := Go.Ok testOIDCClient;
     server.adminRouterInit := None;
     server.chooserRouterInit := None |}.

Definition authConfig (username password : string) (oidc user : bool) : auth.Config :=
  {| auth.AuthUsername := username; auth.AuthPassword := password;
     auth.IsAuthTypeOIDC := oidc; auth.IsAuthTypeUser := user;
     auth.AuthParsedUserPermissions := testUsers |}.

Definition serverConfig (a : auth.Config) : server.Config :=
  {| server.DevMode := false; server.DatabaseReset := false; server.AimRevert := false;
     server.LiveUpdatesEnabled := false; server.Auth := a |}.

(** Per-user scheme, OIDC scheme, and a shared Basic Auth credential. *)
Definition userConfig : server.Config := serverConfig (authConfig "" "" false true).
Definition oidcConfig : server.Config := serverConfig (authConfig "" "" true false).
Definition gatedConfig : server.Config := serverConfig (authConfig "admin" "secret" false false).

Definition testCaches : middleware.Caches :=
  {| middleware.namespaces := [defaultNamespace; namespace1; namespace2; namespace3];
     middleware.roles := testRoles |}.

Definition requestAs (username password code : string) : middleware.Request :=
  {| middleware.target := middleware.NamespacePath code;
     middleware.credentials := middleware.BasicCredentials username password |}.

Definition anonymousRequest (code : string) : middleware.Request :=
  {| middleware.target := middleware.NamespacePath code;
     middleware.credentials := middleware.NoCredentials |}.

Definition servedWith (req : middleware.Request) (ns : models.Namespace) (user : string)
  : middleware.Response :=
  middleware.Served {| middleware.request := req; middleware.namespace := Some ns;
                       middleware.identity := Some user |}.

(** The application [createApp] builds for the per-user scheme. *)
Definition userApp : server.App :=
  {| server.stack := server.gateSteps userConfig ++ [server.NamespaceMiddleware]
                     ++ server.identitySteps userConfig healthyEnv
                     ++ server.serviceSteps userConfig;
     server.namespaceCachedRepository := [defaultNamespace; namespace1; namespace2; namespace3];
     server.rolesCachedRepository := testRoles;
     server.listening := true |}.

Definition tokenRequest (token code : string) : middleware.Request :=
  {| middleware.target := middleware.NamespacePath code;
     middleware.credentials := middleware.BearerToken token |}.

(** The store of the update test: "default" and "test2". *)
Definition updateTestStore : list models.Namespace :=
  [ models.mkNamespace 1 "default" "" (Some 0);
    models.mkNamespace 2 "test2" "test namespace 2 description" (Some 0) ].

(** The sample runs in another order, behind the same service. *)
Definition shuffledService : Project.Service :=
  {| Project.runRepository_GetByNamespaceID := fun _ => Go.Ok (rev sampleRuns);
     Project.experimentRepository_GetCountOfActiveExperiments := fun _ => Go.Ok 2;
     Project.paramRepository_GetParamKeysByParameters := fun _ _ => Go.Ok ["lr"];
     Project.tagRepository_GetTagKeysByParameters := fun _ _ => Go.Ok ["team"];
     Project.metricRepository_GetMetricKeysAndContextsByExperiments :=
       fun _ _ => Go.Ok [Project.mkMetric "loss" "{}"];
     Project.liveUpdatesEnabled := false |}.

(** A service whose tag repository is down. *)
Definition tagDownService : Project.Service :=
  {| Project.runRepository_GetByNamespaceID := fun _ => Go.Err (Go.Opaque "connection reset");
     Project.experimentRepository_GetCountOfActiveExperiments := fun _ => Go.Ok 2;
     Project.paramRepository_GetParamKeysByParameters := fun _ _ => Go.Ok ["lr"];
     Project.tagRepository_GetTagKeysByParameters := fun _ _ => Go.Err (Go.Opaque "timeout");
     Project.metricRepository_GetMetricKeysAndContextsByExperiments :=
       fun _ _ => Go.Ok [Project.mkMetric "loss" "{}"];
     Project.liveUpdatesEnabled := false |}.

Definition fullRequest : Project.GetProjectParamsRequest :=
  {| Project.Sequences := ["metric"]; Project.ExcludeParams := false;
     Project.ExperimentNames := ["exp1"] |}.

(** A start-up whose OIDC provider cannot be reached, and configurations
    with half a shared credential and with both schemes selected. *)
Definition noOIDCEnv : server.Env :=
  {| server.NewArtifactStorageFactory := None;
     server.NewDBProvider := None;
     server.Reset := Some (Go.Opaque "reset refused");
     server.CheckAndMigrateDB := None;
     server.CreateDefaultNamespace := None;
     server.CreateDefaultExperiment := None;
     server.CreateDefaultMetricContext := None;
     server.NewNamespaceListener := None;
     server.loadNamespaces := Go.Ok [defaultNamespace; namespace1];
     server.loadRoles := Go.Ok testRoles;
     server.NewOIDCClient := Go.Err (Go.Opaque "issuer unreachable");
     server.adminRouterInit := None;
     server.chooserRouterInit := None |}.

Definition halfGatedConfig : server.Config := serverConfig (authConfig "admin" "" false true).
Definition bothSchemesConfig : server.Config := serverConfig (authConfig "" "" true true).

(** The application [createApp] builds behind a shared credential. *)
Definition gatedApp : server.App :=
  {| server.stack := server.gateSteps gatedConfig ++ [server.NamespaceMiddleware]
                     ++ server.identitySteps gatedConfig healthyEnv
                     ++ server.serviceSteps gatedConfig;
     server.namespaceCachedRepository := [defaultNamespace; namespace1; namespace2; namespace3];
     server.rolesCachedRepository := testRoles;
     server.listening := true |}.

(** Tags of three runs in two namespaces; the run of the second
    experiment is deleted. *)
Definition tagKeysDB : TagKeys.DB :=
  {| TagKeys.tags := [ TagRepository.mkTag "team" "a" "run1";
                       TagRepository.mkTag "stage" "dev" "run1";
                       TagRepository.mkTag "team" "b" "run2";
                       TagRepository.mkTag "owner" "x" "run3" ];
     TagKeys.runs := [ TagKeys.mkRunRow "run1" 10 Project.LifecycleStageActive;
                       TagKeys.mkRunRow "run2" 11 Project.LifecycleStageDeleted;
                       TagKeys.mkRunRow "run3" 20 Project.LifecycleStageActive ];
     TagKeys.experiments := [ TagKeys.mkExperimentRow 10 1 "exp-a";
                              TagKeys.mkExperimentRow 11 1 "exp-b";
                              TagKeys.mkExperimentRow 20 2 "exp-c" ];
     TagKeys.fault := None |}.

(** A params table behind a driver that refuses an INSERT statement of
    more than one row. *)
Definition limitedParamsDB : ParamRepository.DB :=
  {| ParamRepository.params := {[ ("run1", "lr") := "0.1" ]};
     ParamRepository.RowsAffected := 0;
     ParamRepository.insertFault :=
       fun batch => if (1 <? length batch)%nat then Some (Go.Opaque "too many SQL variables")
                    else None;
     ParamRepository.queryFault := None |}.


(** * Properties *)

(** ** Tag repository *)

(** C7: whenever the fetch succeeds [GetTagsByNamespace] returns the empty
    list, whatever rows were fetched; when the fetch fails it returns that
    error. *)
Theorem GetTagsByNamespace_discards_fetch (db : TagRepository.DB) (namespaceID : N) :
  match TagRepository.Find db with
  | Go.Ok rows => TagRepository.GetTagsByNamespace db namespaceID = Go.Ok []
  | Go.Err e => TagRepository.GetTagsByNamespace db namespaceID = Go.Err e
  end
  /\ Go.is_err (TagRepository.GetTagsByNamespace db namespaceID)
     = Go.is_err (TagRepository.Find db).
Proof.
  unfold TagRepository.GetTagsByNamespace.
  destruct (TagRepository.Find db) as [rows|e]; split; reflexivity.
Qed.

(** The rows really are dropped: a table with a tag still answers []. *)
Example GetTagsByNamespace_nonempty_table :
  let db := {| TagRepository.tags := [TagRepository.mkTag "k" "v" "run1"];
               TagRepository.fault := None |} in
  TagRepository.Find db = Go.Ok [TagRepository.mkTag "k" "v" "run1"]
  /\ TagRepository.GetTagsByNamespace db 1%N = Go.Ok [].
Proof. split; reflexivity. Qed.

(** ** Project service: activity *)

Section ActivityFacts.

Import Project.

Lemma totalActivity_comm (j1 j2 : string) (z1 z2 y : Z) :
  z1 + (z2 + y) = z2 + (z1 + y).
Proof. lia. Qed.

Lemma totalActivity_empty : totalActivity ∅ = 0.
Proof. unfold totalActivity. apply map_fold_empty. Qed.

Lemma totalActivity_insert_fresh (m : gmap string Z) (k : string) (v : Z) :
  m !! k = None -> totalActivity (<[k := v]> m) = v + totalActivity m.
Proof.
  intros Hk. unfold totalActivity.
  rewrite map_fold_insert_L; [reflexivity | intros; lia | exact Hk].
Qed.

Lemma totalActivity_lookup (m : gmap string Z) (k : string) (v : Z) :
  m !! k = Some v -> totalActivity m = v + totalActivity (delete k m).
Proof.
  intros Hk. unfold totalActivity.
  rewrite (map_fold_delete_L _ _ k v m); [reflexivity | intros; lia | exact Hk].
Qed.

(** Bumping one bucket adds exactly one to the total. *)
Lemma totalActivity_increment (m : gmap string Z) (k : string) :
  totalActivity (increment k m) = totalActivity m + 1.
Proof.
  unfold increment. destruct (m !! k) as [v|] eqn:Hk; simpl.
  - rewrite <- insert_delete_eq.
    rewrite totalActivity_insert_fresh by apply lookup_delete_eq.
    rewrite (totalActivity_lookup m k v Hk). lia.
  - rewrite totalActivity_insert_fresh by exact Hk. lia.
Qed.

Variable Format : Z -> string.

Lemma countRun_step (tz : Z) (st : Counters) (r : Run) :
  countersFrom st [r] (countRun Format tz st r).
Proof.
  unfold countersFrom, countRun, isActiveRun, isArchivedRun. simpl.
  destruct (decide (RunLifecycleStage r = LifecycleStageDeleted)) as [Hd|Hd].
  - rewrite (bool_decide_eq_true_2 _ Hd). simpl.
    rewrite totalActivity_increment. repeat split; lia.
  - rewrite (bool_decide_eq_false_2 _ Hd). simpl.
    destruct (decide (RunStatus r = StatusRunning)) as [Hs|Hs].
    + rewrite (bool_decide_eq_true_2 _ Hs). simpl.
      rewrite totalActivity_increment. repeat split; lia.
    + rewrite (bool_decide_eq_false_2 _ Hs). simpl.
      rewrite totalActivity_increment. repeat split; lia.
Qed.

Lemma fold_countRun (tz : Z) (runs : list Run) :
  forall st, countersFrom st runs (fold_left (countRun Format tz) runs st).
Proof.
  induction runs as [|r runs IH]; intros st.
  - unfold countersFrom. simpl. repeat split; lia.
  - simpl fold_left.
    destruct (countRun_step tz st r) as (Ha & Hb & Hc).
    destruct (IH (countRun Format tz st r)) as (Ha' & Hb' & Hc').
    unfold countersFrom. rewrite Ha', Hb', Hc', Ha, Hb, Hc.
    simpl List.filter.
    destruct (isArchivedRun r), (isActiveRun r); simpl length; repeat split; lia.
Qed.

Lemma countRuns_spec (tz : Z) (runs : list Run) :
  let st := countRuns Format tz runs in
  totalActivity (activity st) = Z.of_nat (length runs)
  /\ numArchivedRuns st = Z.of_nat (length (List.filter isArchivedRun runs))
  /\ numActiveRuns st = Z.of_nat (length (List.filter isActiveRun runs)).
Proof.
  destruct (fold_countRun tz runs
              {| activity := ∅; numActiveRuns := 0; numArchivedRuns := 0 |})
    as (Ha & Hb & Hc).
  simpl in *. rewrite totalActivity_empty in Ha.
  unfold countRuns. rewrite Ha, Hb, Hc. repeat split; lia.
Qed.

End ActivityFacts.

(** C9: on the runs the repository returns, [GetProjectActivity] reports
    NumRuns = the number of runs (deleted ones included), an activity map
    whose values sum to NumRuns, NumArchivedRuns = the number of deleted
    runs and NumActiveRuns = the number of running runs that are not
    deleted; a deleted run is never counted as active. *)
Theorem GetProjectActivity_counts
  (Format : Z -> string) (s : Project.Service) (namespaceID : N) (tzOffset : Z)
  (runs : list Project.Run) (n : Z)
  (Hruns : Project.runRepository_GetByNamespaceID s namespaceID = Go.Ok runs)
  (Hexps : Project.experimentRepository_GetCountOfActiveExperiments s namespaceID = Go.Ok n) :
  exists pa,
    (Project.GetProjectActivity Format s namespaceID tzOffset).2 = Go.Ok pa
    /\ Project.NumRuns pa = Z.of_nat (length runs)
    /\ Project.totalActivity (Project.ActivityMap pa) = Project.NumRuns pa
    /\ Project.NumArchivedRuns pa
       = Z.of_nat (length (List.filter Project.isArchivedRun runs))
    /\ Project.NumActiveRuns pa
       = Z.of_nat (length (List.filter Project.isActiveRun runs))
    /\ (forall r, Project.RunLifecycleStage r = Project.LifecycleStageDeleted ->
                  Project.isArchivedRun r = true /\ Project.isActiveRun r = false).
Proof.
  unfold Project.GetProjectActivity, Project.perform, Project.orFail, Project.bind, Project.ret.
  rewrite Hruns, Hexps. simpl.
  eexists. split; [reflexivity|]. simpl.
  destruct (countRuns_spec Format tzOffset runs) as (Ha & Hb & Hc).
  repeat split; try assumption.
  - unfold Project.isArchivedRun. apply bool_decide_eq_true_2. assumption.
  - unfold Project.isActiveRun, Project.isArchivedRun.
    match goal with Hd : _ = Project.LifecycleStageDeleted |- _ =>
      rewrite (bool_decide_eq_true_2 _ Hd) end.
    reflexivity.
Qed.

Example FormatUTC_epoch :
  Project.FormatUTC 0 = "1970-01-01T00:00:00"
  /\ Project.activityKey Project.FormatUTC 1700000000000 (-60) = "2023-11-14T23:00:00"
  /\ Project.activityKey Project.FormatUTC 951782400000 0 = "2000-02-29T00:00:00".
Proof. repeat split; vm_compute; reflexivity. Qed.

Example GetProjectActivity_sample :
  exists pa,
    (Project.GetProjectActivity Project.FormatUTC sampleService 1%N 0).2 = Go.Ok pa
    /\ Project.NumRuns pa = 4 /\ Project.NumActiveRuns pa = 1
    /\ Project.NumArchivedRuns pa = 2
    /\ Project.ActivityMap pa !! "2023-11-14T22:00:00" = Some 2
    /\ Project.ActivityMap pa !! "2023-11-14T23:00:00" = Some 2.
Proof. eexists. split; [reflexivity|]. vm_compute. repeat split. Qed.

Lemma GetProjectActivity_counts_witness :
  exists pa,
    (Project.GetProjectActivity Project.FormatUTC sampleService 1%N 0).2 = Go.Ok pa
    /\ Project.NumRuns pa = Z.of_nat (length sampleRuns)
    /\ Project.totalActivity (Project.ActivityMap pa) = Project.NumRuns pa
    /\ Project.NumArchivedRuns pa
       = Z.of_nat (length (List.filter Project.isArchivedRun sampleRuns))
    /\ Project.NumActiveRuns pa
       = Z.of_nat (length (List.filter Project.isActiveRun sampleRuns))
    /\ (forall r, Project.RunLifecycleStage r = Project.LifecycleStageDeleted ->
                  Project.isArchivedRun r = true /\ Project.isActiveRun r = false).
Proof.
  apply (GetProjectActivity_counts Project.FormatUTC sampleService 1%N 0 sampleRuns 2);
    reflexivity.
Defined.

(** ** Project service: params *)

Section ParamsFacts.

Import Project.

Variable Normalise : GetProjectParamsRequest -> GetProjectParamsRequest.
Variable Validate : GetProjectParamsRequest -> option Go.error.

Lemma wantsMetrics_spec (req : GetProjectParamsRequest) :
  wantsMetrics req = true <-> "metric" ∈ Sequences req.
Proof. unfold wantsMetrics. apply bool_decide_eq_true. Qed.

(** A request that fails validation is answered before any fetch. *)
Lemma GetProjectParams_invalid (s : Service) (ns : N) (req : GetProjectParamsRequest) (e : Go.error) :
  Validate (Normalise req) = Some e ->
  GetProjectParams Normalise Validate s ns req = ([], Go.Err e).
Proof. intros H. unfold GetProjectParams. rewrite H. reflexivity. Qed.

End ParamsFacts.

Ltac internal_error := eexists; unfold api.NewInternalError; reflexivity.

Ltac finish_fetch Hm :=
  repeat match goal with
  | H : Go.Ok _ = Go.Ok _ |- _ => inversion H; subst; clear H
  | H : Go.Err _ = Go.Ok _ |- _ => discriminate H
  | H : Go.Ok _ = Go.Err _ |- _ => discriminate H
  | H : Go.Err _ = Go.Err _ |- _ => inversion H; subst; clear H
  | H : true = false |- _ => discriminate H
  | H : false = true |- _ => discriminate H
  | H : exists _, _ |- _ => destruct H
  | H : "metric" ∈ _ |- _ => apply Hm in H; discriminate H
  | H : ~ "metric" ∈ _ |- _ => exfalso; apply H; apply Hm; reflexivity
  end;
  simpl;
  try solve [ reflexivity | discriminate | congruence | apply Hm; reflexivity
            | internal_error | eexists; reflexivity ].

(** What [GetProjectParams] fetches and returns on a request that passes
    validation. *)
Lemma GetProjectParams_fetches
  (Normalise : Project.GetProjectParamsRequest -> Project.GetProjectParamsRequest)
  (Validate : Project.GetProjectParamsRequest -> option Go.error)
  (s : Project.Service) (namespaceID : N) (req : Project.GetProjectParamsRequest)
  (Hvalid : Validate (Normalise req) = None) :
  let req' := Normalise req in
  let log := (Project.GetProjectParams Normalise Validate s namespaceID req).1 in
  let res := (Project.GetProjectParams Normalise Validate s namespaceID req).2 in
  (Project.ExcludeParams req' = true ->
     existsb Project.isParamFetch log = false
     /\ existsb Project.isTagFetch log = false
     /\ (existsb Project.isMetricFetch log = true <-> "metric" ∈ Project.Sequences req')
     /\ forall pp, res = Go.Ok pp -> Project.ParamKeys pp = [] /\ Project.TagKeys pp = [])
  /\ (existsb Project.isMetricFetch log = true -> "metric" ∈ Project.Sequences req')
  /\ (forall pp, res = Go.Ok pp ->
        ("metric" ∈ Project.Sequences req' ->
           existsb Project.isMetricFetch log = true
           /\ Project.metricRepository_GetMetricKeysAndContextsByExperiments s namespaceID
                (Project.ExperimentNames req') = Go.Ok (Project.Metrics pp))
        /\ (~ "metric" ∈ Project.Sequences req' -> Project.Metrics pp = [])
        /\ (Project.ExcludeParams req' = false ->
              Project.paramRepository_GetParamKeysByParameters s namespaceID
                (Project.ExperimentNames req') = Go.Ok (Project.ParamKeys pp)
              /\ Project.tagRepository_GetTagKeysByParameters s namespaceID
                   (Project.ExperimentNames req') = Go.Ok (Project.TagKeys pp)))
  /\ (existsb (Project.callFails s) log = true <-> Project.isInternalError res)
  /\ (existsb (Project.callFails s) log = false <-> exists pp, res = Go.Ok pp).
Proof.
  intros req' log res. subst log res.
  unfold Project.GetProjectParams. cbv zeta. rewrite Hvalid. fold req'.
  clearbody req'. clear Hvalid.
  pose proof (wantsMetrics_spec req') as Hm.
  unfold Project.isInternalError.
  destruct (Project.ExcludeParams req') eqn:Hex;
    destruct (Project.wantsMetrics req') eqn:Hw;
    unfold Project.bind, Project.orFail, Project.perform, Project.ret; simpl;
    destruct (Project.paramRepository_GetParamKeysByParameters s namespaceID
                (Project.ExperimentNames req')) as [pk|pe] eqn:Hp;
    destruct (Project.tagRepository_GetTagKeysByParameters s namespaceID
                (Project.ExperimentNames req')) as [tk|te] eqn:Ht;
    destruct (Project.metricRepository_GetMetricKeysAndContextsByExperiments s namespaceID
                (Project.ExperimentNames req')) as [mk|me] eqn:Hmk;
    simpl; unfold Go.is_err, Go.is_ok; rewrite ?Hp, ?Ht, ?Hmk; simpl;
    repeat match goal with
    | |- _ /\ _ => split
    | |- _ <-> _ => split
    | |- _ -> _ => intro
    | |- forall _, _ => intro
    end;
    finish_fetch Hm.
Qed.

(** The metric fetch is reached exactly when "metric" is asked for and
    the call has not returned before: params are excluded, or the param
    and the tag fetch both succeeded. *)
Lemma GetProjectParams_metric_fetch
  (Normalise : Project.GetProjectParamsRequest -> Project.GetProjectParamsRequest)
  (Validate : Project.GetProjectParamsRequest -> option Go.error)
  (s : Project.Service) (namespaceID : N) (req : Project.GetProjectParamsRequest)
  (Hvalid : Validate (Normalise req) = None) :
  let req' := Normalise req in
  let log := (Project.GetProjectParams Normalise Validate s namespaceID req).1 in
  existsb Project.isMetricFetch log = true <->
  "metric" ∈ Project.Sequences req'
  /\ (Project.ExcludeParams req' = true
      \/ (Go.is_ok (Project.paramRepository_GetParamKeysByParameters s namespaceID
                      (Project.ExperimentNames req')) = true
          /\ Go.is_ok (Project.tagRepository_GetTagKeysByParameters s namespaceID
                         (Project.ExperimentNames req')) = true)).
Proof.
  intros req' log. subst log.
  unfold Project.GetProjectParams. cbv zeta. rewrite Hvalid. fold req'.
  clearbody req'. clear Hvalid.
  rewrite <- (wantsMetrics_spec req').
  destruct (Project.ExcludeParams req');
    destruct (Project.wantsMetrics req');
    unfold Project.bind, Project.orFail, Project.perform, Project.ret; simpl;
    destruct (Project.paramRepository_GetParamKeysByParameters s namespaceID
                (Project.ExperimentNames req')) as [pk|pe];
    destruct (Project.tagRepository_GetTagKeysByParameters s namespaceID
                (Project.ExperimentNames req')) as [tk|te];
    destruct (Project.metricRepository_GetMetricKeysAndContextsByExperiments s namespaceID
                (Project.ExperimentNames req')) as [mk|me];
    simpl; intuition discriminate.
Qed.

(** C10 (as amended): for a request that passes validation, with [req']
    the normalised request: if [req'] has ExcludeParams set, no param-key
    and no tag-key fetch is performed and both fields of a returned result
    are empty; metric keys are fetched exactly when "metric" is in the
    Sequences of [req'] and the call has not returned before that point
    (params are excluded, or the param-key and the tag-key fetch both
    succeeded), so in every call that returns a result they are fetched
    exactly when "metric" is asked for, and stored in the result; the call
    returns an internal error, and no result, exactly when one of the
    fetches it performed failed. *)
Theorem GetProjectParams_fetch_policy
  (Normalise : Project.GetProjectParamsRequest -> Project.GetProjectParamsRequest)
  (Validate : Project.GetProjectParamsRequest -> option Go.error)
  (s : Project.Service) (namespaceID : N) (req : Project.GetProjectParamsRequest)
  (Hvalid : Validate (Normalise req) = None) :
  let req' := Normalise req in
  let log := (Project.GetProjectParams Normalise Validate s namespaceID req).1 in
  let res := (Project.GetProjectParams Normalise Validate s namespaceID req).2 in
  (Project.ExcludeParams req' = true ->
     existsb Project.isParamFetch log = false
     /\ existsb Project.isTagFetch log = false
     /\ (existsb Project.isMetricFetch log = true <-> "metric" ∈ Project.Sequences req')
     /\ forall pp, res = Go.Ok pp -> Project.ParamKeys pp = [] /\ Project.TagKeys pp = [])
  /\ (existsb Project.isMetricFetch log = true <->
      "metric" ∈ Project.Sequences req'
      /\ (Project.ExcludeParams req' = true
          \/ (Go.is_ok (Project.paramRepository_GetParamKeysByParameters s namespaceID
                          (Project.ExperimentNames req')) = true
              /\ Go.is_ok (Project.tagRepository_GetTagKeysByParameters s namespaceID
                             (Project.ExperimentNames req')) = true)))
  /\ (forall pp, res = Go.Ok pp ->
        ("metric" ∈ Project.Sequences req' ->
           existsb Project.isMetricFetch log = true
           /\ Project.metricRepository_GetMetricKeysAndContextsByExperiments s namespaceID
                (Project.ExperimentNames req') = Go.Ok (Project.Metrics pp))
        /\ (~ "metric" ∈ Project.Sequences req' -> Project.Metrics pp = [])
        /\ (Project.ExcludeParams req' = false ->
              Project.paramRepository_GetParamKeysByParameters s namespaceID
                (Project.ExperimentNames req') = Go.Ok (Project.ParamKeys pp)
              /\ Project.tagRepository_GetTagKeysByParameters s namespaceID
                   (Project.ExperimentNames req') = Go.Ok (Project.TagKeys pp)))
  /\ (existsb (Project.callFails s) log = true <-> Project.isInternalError res)
  /\ (existsb (Project.callFails s) log = false <-> exists pp, res = Go.Ok pp).
Proof.
  intros req' log res.
  pose proof (GetProjectParams_fetches Normalise Validate s namespaceID req Hvalid)
    as (Hexcl & _ & Hres & Hfail & Hok).
  pose proof (GetProjectParams_metric_fetch Normalise Validate s namespaceID req Hvalid)
    as Hmetric.
  split; [exact Hexcl|]. split; [exact Hmetric|]. split; [exact Hres|].
  split; [exact Hfail | exact Hok].
Qed.

(** C10, the claim as worded fails: with "metric" among the Sequences and
    params not excluded, a tag-key fetch that fails ends the call before
    the metric fetch, so no metric keys are fetched although "metric" is
    asked for. *)
Lemma GetProjectParams_metrics_skipped_after_failure :
  acceptRequest (keepRequest fullRequest) = None
  /\ "metric" ∈ Project.Sequences (keepRequest fullRequest)
  /\ existsb Project.isMetricFetch
       (Project.GetProjectParams keepRequest acceptRequest tagDownService 1%N fullRequest).1
     = false
  /\ ~ (existsb Project.isMetricFetch
          (Project.GetProjectParams keepRequest acceptRequest tagDownService 1%N fullRequest).1
        = true
        <-> "metric" ∈ Project.Sequences (keepRequest fullRequest)).
Proof.
  assert (Hin : "metric" ∈ Project.Sequences (keepRequest fullRequest))
    by (apply list_elem_of_here).
  split; [reflexivity|]. split; [exact Hin|]. split; [reflexivity|].
  intros [_ Hback]. specialize (Hback Hin). discriminate Hback.
Qed.


Example GetProjectParams_excluding :
  Project.GetProjectParams keepRequest acceptRequest sampleService 1%N excludingRequest
  = ([Project.MetricGetMetricKeysAndContextsByExperiments 1%N []],
     Go.Ok {| Project.Metrics := [Project.mkMetric "loss" "{}"];
              Project.ParamKeys := []; Project.TagKeys := [] |}).
Proof. reflexivity. Qed.

Lemma GetProjectParams_fetch_policy_witness :
  existsb Project.isParamFetch
    (Project.GetProjectParams keepRequest acceptRequest sampleService 1%N excludingRequest).1
  = false.
Proof.
  pose proof (GetProjectParams_fetch_policy keepRequest acceptRequest sampleService 1%N
                excludingRequest eq_refl) as H.
  destruct H as [H _]. apply H. reflexivity.
Defined.

(** ** Params repository *)

Section ParamFacts.

Import ParamRepository.

Lemma batches_concat (n : nat) :
  (0 < n)%nat ->
  forall fuel l, (length l <= fuel)%nat -> concat (batches fuel n l) = l.
Proof.
  intros Hn. induction fuel as [|fuel IH]; intros l Hl.
  - destruct l; [reflexivity | simpl in Hl; lia].
  - destruct l as [|x l]; [reflexivity|].
    change (batches (S fuel) n (x :: l))
      with (take n (x :: l) :: batches fuel n (drop n (x :: l))).
    simpl concat. rewrite IH.
    + apply take_drop.
    + rewrite length_drop. simpl in *. lia.
Qed.

Lemma fold_insertBatch (bs : list (list Param)) :
  forall acc, fold_left insertBatch bs acc = fold_left insertOrIgnore (concat bs) acc.
Proof.
  induction bs as [|b bs IH]; intros acc; simpl.
  - reflexivity.
  - rewrite IH. unfold insertBatch. rewrite fold_left_app. reflexivity.
Qed.

Lemma runBatches_accepted (fault : list Param -> option Go.error) (bs : list (list Param)) :
  forall acc,
    (forall b, In b bs -> fault b = None) ->
    runBatches fault bs acc = Go.Ok (fold_left insertBatch bs acc).
Proof.
  induction bs as [|b bs IH]; intros acc Hacc; simpl.
  - reflexivity.
  - rewrite (Hacc b) by (left; reflexivity). apply IH.
    intros b' Hb'. apply Hacc. right. exact Hb'.
Qed.

Lemma runBatches_ok_inv (fault : list Param -> option Go.error) (bs : list (list Param)) :
  forall acc r,
    runBatches fault bs acc = Go.Ok r -> forall b, In b bs -> fault b = None.
Proof.
  induction bs as [|b bs IH]; intros acc r Hrun b' Hb'; simpl in *.
  - contradiction.
  - destruct (fault b) as [e|] eqn:Hb; [discriminate|].
    destruct Hb' as [<-|Hb']; [exact Hb|]. exact (IH _ _ Hrun b' Hb').
Qed.

(** Sending the rows batch by batch stores what sending them one by one
    stores. *)
Lemma CreateInBatches_rows (tx : DB) (n : nat) (ps : list Param) :
  (0 < n)%nat -> insertAccepted tx n ps ->
  CreateInBatches tx n ps
  = Go.Ok (setTable tx (fold_left insertOrIgnore ps (params tx, 0)).1
                       (fold_left insertOrIgnore ps (params tx, 0)).2).
Proof.
  intros Hn Hf. unfold CreateInBatches.
  rewrite (runBatches_accepted _ _ _ Hf).
  rewrite fold_insertBatch, batches_concat by (auto; lia). reflexivity.
Qed.

(** The insert goes through exactly when the driver accepts every
    statement. *)
Lemma CreateInBatches_ok_inv (tx : DB) (n : nat) (ps : list Param) (statement : DB) :
  CreateInBatches tx n ps = Go.Ok statement -> insertAccepted tx n ps.
Proof.
  unfold CreateInBatches, insertAccepted.
  destruct (runBatches (insertFault tx) (batches (length ps) n ps) (params tx, 0))
    as [r|e] eqn:Hrun; [|discriminate].
  intros _. exact (runBatches_ok_inv _ _ _ _ Hrun).
Qed.

(** Rows present before the statement are kept as they are. *)
Lemma insert_keeps (ps : list Param) :
  forall (acc : table * Z) k v,
    acc.1 !! k = Some v -> (fold_left insertOrIgnore ps acc).1 !! k = Some v.
Proof.
  induction ps as [|p ps IH]; intros acc k v Hk; simpl.
  - exact Hk.
  - apply IH. unfold insertOrIgnore.
    destruct (acc.1 !! pk p) eqn:Hp; [exact Hk|]. simpl.
    rewrite lookup_insert_ne; [exact Hk|]. intros Heq. rewrite Heq in Hp. congruence.
Qed.

(** After the statement every input key is stored. *)
Lemma insert_covers (ps : list Param) :
  forall (acc : table * Z) p,
    In p ps -> is_Some ((fold_left insertOrIgnore ps acc).1 !! pk p).
Proof.
  induction ps as [|q ps IH]; intros acc p Hin; simpl in *.
  - contradiction.
  - destruct Hin as [->|Hin]; [|apply IH; exact Hin].
    unfold insertOrIgnore. destruct (acc.1 !! pk p) as [v|] eqn:Hp.
    + exists v. apply insert_keeps. exact Hp.
    + exists (Value p). apply insert_keeps. simpl. apply lookup_insert_eq.
Qed.

(** A row stored after the statement was there before, or is an input row
    whose key was free. *)
Lemma insert_origin (ps : list Param) :
  forall (acc : table * Z) k w,
    (fold_left insertOrIgnore ps acc).1 !! k = Some w ->
    acc.1 !! k = Some w
    \/ (acc.1 !! k = None /\ exists q, In q ps /\ pk q = k /\ Value q = w).
Proof.
  induction ps as [|p ps IH]; intros acc k w Hk; simpl in *.
  - left. exact Hk.
  - apply IH in Hk. unfold insertOrIgnore in Hk.
    destruct (acc.1 !! pk p) eqn:Hp.
    + destruct Hk as [Hk|(Hn & q & Hq & Hpk & Hv)]; [left; exact Hk|].
      right. split; [exact Hn|]. exists q. auto.
    + simpl in Hk. destruct (decide (pk p = k)) as [<-|Hne].
      * rewrite lookup_insert_eq in Hk.
        destruct Hk as [Hk|[Hk _]]; [|discriminate].
        right. split; [exact Hp|]. exists p. split; [auto|]. split; congruence.
      * rewrite lookup_insert_ne in Hk by exact Hne.
        destruct Hk as [Hk|(Hn & q & Hq & Hpk & Hv)]; [left; exact Hk|].
        right. split; [exact Hn|]. exists q. auto.
Qed.

(** The counter never exceeds the number of rows sent, and reaches it only
    when every row was stored with its own value. *)
Lemma insert_count (ps : list Param) :
  forall (acc : table * Z),
    (fold_left insertOrIgnore ps acc).2 <= acc.2 + Z.of_nat (length ps)
    /\ ((fold_left insertOrIgnore ps acc).2 = acc.2 + Z.of_nat (length ps) ->
        forall p, In p ps -> (fold_left insertOrIgnore ps acc).1 !! pk p = Some (Value p)).
Proof.
  induction ps as [|p ps IH]; intros acc.
  - simpl. split; [lia|]. intros _ p [].
  - change (fold_left insertOrIgnore (p :: ps) acc)
      with (fold_left insertOrIgnore ps (insertOrIgnore acc p)).
    destruct (IH (insertOrIgnore acc p)) as [Hle Hall].
    unfold insertOrIgnore in *. rewrite length_cons, Nat2Z.inj_succ.
    destruct (acc.1 !! pk p) eqn:Hp.
    + split; [lia|]. intros Heq. lia.
    + simpl in *. split; [lia|]. intros Heq q [<-|Hq].
      * apply insert_keeps. simpl. apply lookup_insert_eq.
      * apply Hall; [lia | exact Hq].
Qed.

(** When every input key is already stored the table is left as it is. *)
Lemma insert_all_present (ps : list Param) :
  forall (acc : table * Z),
    (forall p, In p ps -> is_Some (acc.1 !! pk p)) ->
    fold_left insertOrIgnore ps acc = acc.
Proof.
  induction ps as [|p ps IH]; intros acc Hall; simpl.
  - reflexivity.
  - assert (Hp : is_Some (acc.1 !! pk p)) by (apply Hall; left; reflexivity).
    destruct Hp as [v Hp]. unfold insertOrIgnore at 2. rewrite Hp.
    apply IH. intros q Hq. apply Hall. right. exact Hq.
Qed.

Lemma omap_conflict_nil (t : table) (ps : list Param) :
  omap (conflictOf t) ps = [] <->
  forall p, In p ps -> forall old, t !! pk p = Some old -> old = Value p.
Proof.
  induction ps as [|p ps IH]; simpl.
  - split; [intros _ p [] | reflexivity].
  - unfold conflictOf at 1. destruct (t !! pk p) as [old|] eqn:Hp.
    + destruct (decide (Value p = old)) as [Heq|Hne].
      * rewrite IH. split.
        -- intros H q [<-|Hq] o Ho; [congruence | eapply H; eauto].
        -- intros H q Hq. apply H. right. exact Hq.
      * split; [discriminate|]. intros H. exfalso. apply Hne. symmetry.
        apply (H p); [left; reflexivity | exact Hp].
    + rewrite IH. split.
      * intros H q [<-|Hq] o Ho; [congruence | eapply H; eauto].
      * intros H q Hq. apply H. right. exact Hq.
Qed.

Lemma omap_conflict_witness (t : table) (ps : list Param) :
  omap (conflictOf t) ps <> [] ->
  exists p, In p ps /\ exists old, t !! pk p = Some old /\ old <> Value p.
Proof.
  induction ps as [|p ps IH]; simpl; intros Hne.
  - congruence.
  - unfold conflictOf in Hne at 1. destruct (t !! pk p) as [old|] eqn:Hp.
    + destruct (decide (Value p = old)) as [Heq|Hneq].
      * destruct (IH Hne) as (q & Hq & Hrest). exists q. auto.
      * exists p. split; [left; reflexivity|]. exists old. split; congruence.
    + destruct (IH Hne) as (q & Hq & Hrest). exists q. auto.
Qed.

(** The conflict query on the table left by the insert finds a row exactly
    when an input row clashes with a row stored before, or two input rows
    clash with each other. *)
Lemma conflicts_after_insert (t : table) (n : Z) (ps : list Param) :
  omap (conflictOf (fold_left insertOrIgnore ps (t, n)).1) ps <> [] <->
  conflictsWithTable t ps \/ conflictsWithinBatch ps.
Proof.
  set (t' := (fold_left insertOrIgnore ps (t, n)).1).
  split.
  - intros Hne.
    destruct (omap_conflict_witness t' ps Hne) as (p & Hp & old & Ho & Hne').
    apply insert_origin in Ho. simpl in Ho.
    destruct Ho as [Ho|(Hn & q & Hq & Hpk & Hv)].
    + left. exists p, old. auto.
    + right. exists p, q. repeat split; auto. congruence.
  - intros [(p & old & Hp & Ho & Hne)|(p & q & Hp & Hq & Hpk & Hne)] Hnil;
      rewrite omap_conflict_nil in Hnil.
    + apply Hne. apply (Hnil p Hp). apply insert_keeps. exact Ho.
    + destruct (insert_covers ps (t, n) p Hp) as [w Hw]. fold t' in Hw.
      apply Hne. rewrite <- (Hnil p Hp w Hw).
      apply (Hnil q Hq w). rewrite <- Hpk. exact Hw.
Qed.

End ParamFacts.

Section CreateBatchFacts.

Import ParamRepository.

(** The statement of [CreateBatch] once the insert went through: the
    counter of the closure's handle is zero, so the conflict query runs
    for every batch that is not empty. *)
Lemma CreateBatch_after_insert (db : DB) (n : nat) (ps : list Param) :
  (0 < n)%nat -> insertAccepted db n ps ->
  let acc := fold_left insertOrIgnore ps (params db, 0) in
  CreateBatch db n ps =
    if decide (0 = Z.of_nat (length ps)) then (committed db acc, None)
    else match queryFault db with
         | Some e =>
             (db, Some (Go.Wrap (Go.Wrap e "error fetching params from db")
                          "error checking for conflicting params"))
         | None =>
             if decide (0 < length (omap (conflictOf acc.1) ps))%nat then
               (db, Some (Go.ParamConflictError
                            ("conflicting params found: "
                             +:+ conflictsString (omap (conflictOf acc.1) ps))))
             else (committed db acc, None)
         end.
Proof.
  intros Hn Hf acc. unfold CreateBatch, Transaction, createBatchBody.
  rewrite (CreateInBatches_rows (Begin db) n ps Hn Hf).
  change (params (Begin db)) with (params db). fold acc. simpl.
  destruct (decide (0 = Z.of_nat (length ps))); [reflexivity|].
  unfold findConflictingParams. simpl.
  destruct (queryFault db); [reflexivity|].
  destruct (decide (0 < length (omap (conflictOf acc.1) ps))%nat); reflexivity.
Qed.

(** A refused INSERT statement is returned wrapped, after the rollback. *)
Lemma CreateBatch_insert_refused (db : DB) (n : nat) (ps : list Param) :
  ~ insertAccepted db n ps ->
  exists e, CreateBatch db n ps = (db, Some (Go.Wrap e "error creating params in batch")).
Proof.
  intros Hno. unfold CreateBatch, Transaction, createBatchBody.
  destruct (CreateInBatches (Begin db) n ps) as [statement|e] eqn:Hci.
  - exfalso. apply Hno. exact (CreateInBatches_ok_inv (Begin db) n ps statement Hci).
  - exists e. reflexivity.
Qed.

Lemma insertAccepted_dec (db : DB) (n : nat) (ps : list Param) :
  insertAccepted db n ps \/ ~ insertAccepted db n ps.
Proof.
  destruct (CreateInBatches db n ps) as [statement|e] eqn:Hci.
  - left. exact (CreateInBatches_ok_inv db n ps statement Hci).
  - right. intros Hacc. revert Hci. unfold CreateInBatches.
    rewrite (runBatches_accepted _ _ _ Hacc). discriminate.
Qed.

Lemma length_pos_not_nil {A} (l : list A) : (0 < length l)%nat <-> l <> [].
Proof. destruct l; simpl; split; intros; try congruence; lia. Qed.

End CreateBatchFacts.

(** C8 (as amended): for a positive batch size, [CreateBatch] returns a
    ParamConflictError only if some input param has a (run_uuid, key)
    stored before the call with another value or two input params share
    (run_uuid, key) with different values, and it does return it in that
    case whenever the insert and the conflict query themselves succeed;
    whenever any error is returned the database is the one before the
    call; input params that duplicate stored rows exactly cause no error
    and leave the table as it was; without any clash the call succeeds,
    keeps every stored row and stores every input row. *)
Theorem CreateBatch_conflict_policy
  (db : ParamRepository.DB) (batchSize : nat) (ps : list ParamRepository.Param)
  (Hsize : (0 < batchSize)%nat) :
  let r := ParamRepository.CreateBatch db batchSize ps in
  let clash := ParamRepository.conflictsWithTable (ParamRepository.params db) ps
               \/ ParamRepository.conflictsWithinBatch ps in
  (ParamRepository.isParamConflict r.2 -> clash)
  /\ (ParamRepository.insertAccepted db batchSize ps ->
      ParamRepository.queryFault db = None ->
      clash -> ParamRepository.isParamConflict r.2)
  /\ (r.2 <> None -> r.1 = db)
  /\ (ParamRepository.insertAccepted db batchSize ps ->
      ParamRepository.queryFault db = None ->
      (forall p, In p ps ->
         ParamRepository.params db !! ParamRepository.pk p = Some (ParamRepository.Value p)) ->
      r.2 = None /\ ParamRepository.params r.1 = ParamRepository.params db)
  /\ (ParamRepository.insertAccepted db batchSize ps ->
      ParamRepository.queryFault db = None ->
      ~ clash ->
      r.2 = None
      /\ (forall k v, ParamRepository.params db !! k = Some v ->
                      ParamRepository.params r.1 !! k = Some v)
      /\ (forall p, In p ps ->
            ParamRepository.params r.1 !! ParamRepository.pk p
            = Some (ParamRepository.Value p))).
Proof.
  intros r clash.
  pose proof (conflicts_after_insert (ParamRepository.params db) 0 ps) as Hq.
  fold clash in Hq.
  destruct (insertAccepted_dec db batchSize ps) as [Hf|Hf].
  2:{ destruct (CreateBatch_insert_refused db batchSize ps Hf) as [e He].
      subst r. rewrite He. simpl.
      split; [intros [msg Hmsg]; discriminate|].
      split; [intros Hc; contradiction|].
      split; [reflexivity|].
      split; intros Hc; contradiction. }
  subst r. rewrite (CreateBatch_after_insert db batchSize ps Hsize Hf).
  set (acc := fold_left ParamRepository.insertOrIgnore ps (ParamRepository.params db, 0)) in *.
  assert (Hdup : (forall p, In p ps ->
                    ParamRepository.params db !! ParamRepository.pk p
                    = Some (ParamRepository.Value p)) ->
                 acc = (ParamRepository.params db, 0) /\ ~ clash).
  { intros Hall.
    assert (Hacc : acc = (ParamRepository.params db, 0)).
    { apply insert_all_present. intros p Hp. simpl. rewrite (Hall p Hp). eauto. }
    split; [exact Hacc|]. intros Hc. apply Hq in Hc. apply Hc.
    apply omap_conflict_nil. intros p Hp old Ho.
    rewrite Hacc in Ho. simpl in Ho. rewrite (Hall p Hp) in Ho. congruence. }
  assert (Hkeep : forall k v, ParamRepository.params db !! k = Some v -> acc.1 !! k = Some v).
  { intros k v Hk. apply insert_keeps. exact Hk. }
  assert (Hstored : ~ clash -> forall p, In p ps ->
                      acc.1 !! ParamRepository.pk p = Some (ParamRepository.Value p)).
  { intros Hnc p Hp.
    destruct (insert_covers ps (ParamRepository.params db, 0) p Hp) as [w Hw].
    fold acc in Hw. rewrite Hw. f_equal.
    destruct (decide (w = ParamRepository.Value p)) as [|Hne]; [assumption|].
    exfalso. apply Hnc. apply Hq. intros Hnil.
    rewrite omap_conflict_nil in Hnil. apply Hne. exact (Hnil p Hp w Hw). }
  destruct (decide (0 = Z.of_nat (length ps))) as [Hempty|Hsome]; simpl.
  { assert (Hfree : ~ clash).
    { destruct ps; [|simpl in Hempty; lia].
      intros [(p & old & [] & _)|(p & q & [] & _)]. }
    split; [intros [msg Hmsg]; discriminate|].
    split; [intros _ _ Hc; contradiction|].
    split; [intros Herr; congruence|].
    split.
    - intros _ _ Hall. destruct (Hdup Hall) as [Hacc _]. rewrite Hacc. auto.
    - intros _ _ Hnc. split; [reflexivity|]. split; [exact Hkeep | exact (Hstored Hnc)]. }
  destruct (ParamRepository.queryFault db) as [e|] eqn:Hqf; simpl.
  { split; [intros [msg Hmsg]; discriminate|].
    split; [intros _ Hc; discriminate|].
    split; [reflexivity|].
    split; intros _ Hc; discriminate. }
  destruct (decide (0 < length (omap (ParamRepository.conflictOf acc.1) ps))%nat)
    as [Hpos|Hzero]; simpl.
  - apply length_pos_not_nil in Hpos. apply Hq in Hpos.
    split; [intros _; exact Hpos|].
    split; [intros _ _ _; eexists; reflexivity|].
    split; [reflexivity|].
    split.
    + intros _ _ Hall. destruct (Hdup Hall) as [_ Hnc]. contradiction.
    + intros _ _ Hnc. contradiction.
  - assert (Hnc : ~ clash).
    { intros Hc. apply Hq in Hc. apply Hzero. apply length_pos_not_nil. exact Hc. }
    split; [intros [msg Hmsg]; discriminate|].
    split; [intros _ _ Hc; contradiction|].
    split; [intros Herr; congruence|].
    split.
    + intros _ _ Hall. destruct (Hdup Hall) as [Hacc _]. rewrite Hacc. auto.
    + intros _ _ _. split; [reflexivity|]. split; [exact Hkeep | exact (Hstored Hnc)].
Qed.

(** C8, the claim as worded fails: on an empty table a batch that carries
    the same (run_uuid, key) twice with different values is answered with a
    ParamConflictError although no input pair was present in the table. *)
Lemma CreateBatch_conflict_without_stored_row :
  ParamRepository.isParamConflict
    (ParamRepository.CreateBatch emptyParamsDB 100 clashingBatch).2
  /\ ~ ParamRepository.conflictsWithTable (ParamRepository.params emptyParamsDB) clashingBatch.
Proof.
  split.
  - eexists. vm_compute. reflexivity.
  - intros (p & old & _ & Hold & _). simpl in Hold.
    rewrite lookup_empty in Hold. discriminate.
Qed.

Lemma CreateBatch_conflict_policy_witness :
  (0 < 100)%nat
  /\ ParamRepository.isParamConflict
       (ParamRepository.CreateBatch storedParamsDB 100 clashingBatch).2.
Proof.
  split; [lia|].
  apply (CreateBatch_conflict_policy storedParamsDB 100 clashingBatch);
    [lia | intros batch _; reflexivity | reflexivity |].
  left. exists (ParamRepository.mkParam "lr" "0.2" "run1"), "0.1".
  split; [right; left; reflexivity|].
  split; [reflexivity | discriminate].
Defined.

(** An exact duplicate of the stored row is skipped and the new row stored. *)
Example CreateBatch_duplicate_ignored :
  let r := ParamRepository.CreateBatch storedParamsDB 100 duplicateBatch in
  r.2 = None
  /\ ParamRepository.params r.1 !! ("run1", "lr") = Some "0.1"
  /\ ParamRepository.params r.1 !! ("run1", "depth") = Some "3".
Proof. vm_compute. repeat split. Qed.

(** A clash rolls the transaction back. *)
Example CreateBatch_clash_rolls_back :
  (ParamRepository.CreateBatch storedParamsDB 1 clashingBatch).1 = storedParamsDB
  /\ (ParamRepository.CreateBatch storedParamsDB 1 clashingBatch).2
     = Some (Go.ParamConflictError
               "conflicting params found: [{run_id: run1, key: lr, old_value: 0.1, new_value: 0.2}]").
Proof. split; vm_compute; reflexivity. Qed.

(** ** Server start-up and the request pipeline *)

(** C3: with user1 -> [namespace1, namespace2], user2 -> [namespace2,
    namespace3], user3 -> admin and the three namespaces existing, user1
    is served in namespace1, user1 asking for namespace3 is answered
    "RESOURCE_DOES_NOT_EXIST: unable to find namespace with code:
    namespace3", and user3 is served in namespace3. *)
Theorem per_user_scenario :
  exists app,
    server.createApp userConfig healthyEnv = Go.Ok app
    /\ server.serve app testCaches (requestAs "user1" "user1password" "namespace1")
       = servedWith (requestAs "user1" "user1password" "namespace1") namespace1 "user1"
    /\ (exists err,
          server.serve app testCaches (requestAs "user1" "user1password" "namespace3")
          = middleware.Rejected 404 err
          /\ Go.Error err
             = "RESOURCE_DOES_NOT_EXIST: unable to find namespace with code: namespace3")
    /\ server.serve app testCaches (requestAs "user3" "user3password" "namespace3")
       = servedWith (requestAs "user3" "user3password" "namespace3") namespace3 "user3".
Proof.
  eexists. split; [vm_compute; reflexivity|].
  split; [vm_compute; reflexivity|].
  split; [|vm_compute; reflexivity].
  eexists. split; vm_compute; reflexivity.
Qed.

Section ServerFacts.

Import server.

Lemma check_ok (msg : string) (o : option Go.error) :
  check msg o = Go.Ok tt <-> o = None.
Proof. destruct o; simpl; split; intros; congruence. Qed.

(** A successful [createApp] went through every start-up step and
    registered the stack in three parts. *)
Lemma createApp_ok (config : Config) (env : Env) (app : App) :
  createApp config env = Go.Ok app ->
  NewNamespaceListener env = None
  /\ loadNamespaces env = Go.Ok (namespaceCachedRepository app)
  /\ loadRoles env = Go.Ok (rolesCachedRepository app)
  /\ listening app = true
  /\ stack app
     = gateSteps config ++ [NamespaceMiddleware]
       ++ identitySteps config env ++ serviceSteps config.
Proof.
  unfold createApp, gateSteps, identitySteps, serviceSteps.
  destruct (NewNamespaceListener env); simpl; [discriminate|].
  destruct (loadNamespaces env) as [nss|]; simpl; [|discriminate].
  destruct (loadRoles env) as [rs|]; simpl; [|discriminate].
  destruct (DevMode config), (sharedBasicAuth (Auth config)),
    (auth.IsAuthTypeOIDC (Auth config)), (auth.IsAuthTypeUser (Auth config));
    simpl;
    destruct (NewOIDCClient env); simpl; try discriminate;
    destruct (adminRouterInit env); simpl; try discriminate;
    destruct (chooserRouterInit env); simpl; try discriminate;
    intros Happ; inversion Happ; subst; simpl; auto.
Qed.

Lemma walk_app (caches : middleware.Caches) (hs1 hs2 : list Handler) :
  forall c,
    walk caches (hs1 ++ hs2) c =
    match walk_through caches hs1 c with
    | middleware.Next c' => walk caches hs2 c'
    | middleware.Reply r => r
    end.
Proof.
  induction hs1 as [|h hs1 IH]; intros c; simpl.
  - reflexivity.
  - destruct (handle caches h c); [apply IH | reflexivity].
Qed.

(** The handlers after the identity step hand a namespaced request to a
    business route. *)
Lemma walk_serviceSteps (caches : middleware.Caches) (config : Config) (c : middleware.Ctx)
  (code : string) :
  middleware.target (middleware.request c) = middleware.NamespacePath code ->
  walk caches (serviceSteps config) c = middleware.Served c.
Proof. intros Ht. simpl. rewrite Ht. reflexivity. Qed.

(** The steps before the namespace step: the shared gate, when attached,
    decides alone whether the request goes on. *)
Lemma walk_gateSteps (caches : middleware.Caches) (config : Config) (c : middleware.Ctx)
  (code : string) :
  middleware.target (middleware.request c) = middleware.NamespacePath code ->
  walk_through caches (gateSteps config) c =
    if passesGate (Auth config) (middleware.credentials (middleware.request c))
    then middleware.Next c else middleware.Reply middleware.Unauthorized.
Proof.
  intros Ht. unfold gateSteps, passesGate.
  assert (Hcookie : walk_through caches [SetCookieRoute] c = middleware.Next c).
  { simpl. unfold middleware.setCookie. rewrite Ht. reflexivity. }
  destruct (sharedBasicAuth (Auth config)).
  - assert (Hgate : forall c0, c0 = c ->
              walk_through caches
                ([BasicAuth [(auth.AuthUsername (Auth config), auth.AuthPassword (Auth config))]]
                 ++ [SetCookieRoute]) c0
              = if match middleware.credentials (middleware.request c) with
                   | middleware.BasicCredentials u p =>
                       bool_decide (u = auth.AuthUsername (Auth config)
                                    /\ p = auth.AuthPassword (Auth config))
                   | _ => false
                   end
                then middleware.Next c else middleware.Reply middleware.Unauthorized).
    { intros c0 ->. simpl. unfold middleware.basicauth, middleware.setCookie.
      destruct (middleware.credentials (middleware.request c)) as [|u p|tok]; try reflexivity.
      destruct (decide (u = auth.AuthUsername (Auth config)
                        /\ p = auth.AuthPassword (Auth config))) as [[-> ->]|Hne].
      - rewrite bool_decide_eq_true_2 by (apply list_elem_of_here).
        rewrite bool_decide_eq_true_2 by auto. rewrite Ht. reflexivity.
      - rewrite (bool_decide_eq_false_2 _ Hne).
        rewrite bool_decide_eq_false_2; [reflexivity|].
        intros Hin. apply list_elem_of_singleton in Hin. inversion Hin. auto. }
    destruct (DevMode config); simpl app; [|apply Hgate; reflexivity].
    change (walk_through caches (CORS :: ?l) c) with (walk_through caches l c).
    apply Hgate. reflexivity.
  - destruct (DevMode config); simpl; unfold middleware.setCookie; rewrite Ht; reflexivity.
Qed.

(** What a namespaced request meets in the stack of a server that
    started. *)
Lemma serve_namespaced (config : Config) (env : Env) (app : App)
  (caches : middleware.Caches) (code : string) (cr : middleware.Credentials) :
  createApp config env = Go.Ok app ->
  let req := {| middleware.target := middleware.NamespacePath code;
                middleware.credentials := cr |} in
  serve app caches req =
    if passesGate (Auth config) cr then
      match repositories.GetByCode (middleware.namespaces caches) code with
      | None => middleware.namespaceNotFound code
      | Some ns =>
          let c := {| middleware.request := req; middleware.namespace := Some ns;
                      middleware.identity := None |} in
          match walk_through caches (identitySteps config env) c with
          | middleware.Next c' => middleware.Served c'
          | middleware.Reply r => r
          end
      end
    else middleware.Unauthorized.
Proof.
  intros Happ req. apply createApp_ok in Happ.
  destruct Happ as (_ & _ & _ & _ & Hstack).
  unfold serve. rewrite Hstack. rewrite walk_app.
  rewrite (walk_gateSteps caches config _ code) by reflexivity. simpl.
  destruct (passesGate (Auth config) cr); [|reflexivity].
  unfold middleware.NewNamespaceMiddleware. simpl.
  destruct (repositories.GetByCode (middleware.namespaces caches) code) as [ns|];
    [|reflexivity].
  rewrite walk_app.
  destruct (walk_through caches (identitySteps config env) _) as [c'|r] eqn:Hid;
    [|reflexivity].
  apply (walk_serviceSteps caches config c' code).
  (* the identity step keeps the request *)
  revert Hid. unfold identitySteps.
  destruct (auth.IsAuthTypeOIDC (Auth config)).
  - destruct (NewOIDCClient env) as [client|]; simpl.
    + unfold middleware.NewOIDCMiddleware. simpl.
      destruct cr as [|u p|tok]; try discriminate.
      destruct (auth.Verify client tok); [|discriminate].
      match goal with |- context [if ?b then _ else _] => destruct b end;
        [|discriminate].
      intros Hid. inversion Hid. reflexivity.
    + intros Hid. inversion Hid. reflexivity.
  - destruct (auth.IsAuthTypeUser (Auth config)); simpl.
    + unfold middleware.NewBasicAuthMiddleware. simpl.
      destruct (middleware.authenticate _ cr); [|discriminate].
      match goal with |- context [if ?b then _ else _] => destruct b end;
        [|discriminate].
      intros Hid. inversion Hid. reflexivity.
    + intros Hid. inversion Hid. reflexivity.
Qed.

End ServerFacts.

(** C6: if the notification listener cannot be created, or the initial
    load of the cached namespace repository or of the cached role
    repository fails, [createApp] and [NewServer] return an error and no
    application; conversely an application that was returned has its
    listener started and both caches loaded. *)
Theorem startup_failure_is_fatal (config : server.Config) (env : server.Env)
  (Hfail : server.NewNamespaceListener env <> None
           \/ Go.is_err (server.loadNamespaces env) = true
           \/ Go.is_err (server.loadRoles env) = true) :
  Go.is_err (server.createApp config env) = true
  /\ Go.is_err (server.NewServer config env) = true
  /\ (forall app, server.createApp config env <> Go.Ok app)
  /\ (forall app, server.NewServer config env <> Go.Ok app).
Proof.
  assert (Hno : forall app, server.createApp config env <> Go.Ok app).
  { intros app Happ. apply createApp_ok in Happ.
    destruct Happ as (Hl & Hn & Hr & _).
    destruct Hfail as [Hf|[Hf|Hf]].
    - contradiction.
    - rewrite Hn in Hf. discriminate.
    - rewrite Hr in Hf. discriminate. }
  assert (Herr : Go.is_err (server.createApp config env) = true).
  { destruct (server.createApp config env) as [app|e] eqn:Happ; [|reflexivity].
    exfalso. exact (Hno app eq_refl). }
  assert (Hsrv : forall app, server.NewServer config env <> Go.Ok app).
  { intros app. unfold server.NewServer.
    destruct (server.check _ (server.NewArtifactStorageFactory env)); simpl; [|discriminate].
    destruct (server.createDBProvider config env); simpl; [|discriminate].
    destruct (server.createApp config env) as [app'|e] eqn:Happ; simpl; [|discriminate].
    exfalso. exact (Hno app' eq_refl). }
  repeat split; try assumption.
  destruct (server.NewServer config env) as [app|e] eqn:Hs; [|reflexivity].
  exfalso. exact (Hsrv app eq_refl).
Qed.

Lemma startup_failure_is_fatal_witness :
  Go.is_err (server.createApp userConfig deafEnv) = true
  /\ Go.is_err (server.NewServer userConfig deafEnv) = true
  /\ (forall app, server.createApp userConfig deafEnv <> Go.Ok app)
  /\ (forall app, server.NewServer userConfig deafEnv <> Go.Ok app).
Proof.
  apply (startup_failure_is_fatal userConfig deafEnv).
  left. simpl. discriminate.
Defined.

(** The error a failed listener surfaces as, and a start-up that works. *)
Example NewServer_deaf :
  server.NewServer userConfig deafEnv
  = Go.Err (Go.Wrap (Go.Wrap (Go.Opaque "pq: connection refused")
                       "error creating namespace notification listener")
              "error creating application").
Proof. reflexivity. Qed.

Example NewServer_healthy :
  exists app, server.NewServer userConfig healthyEnv = Go.Ok app
              /\ server.listening app = true
              /\ server.namespaceCachedRepository app
                 = [defaultNamespace; namespace1; namespace2; namespace3].
Proof. eexists. split; [vm_compute; reflexivity|]. split; reflexivity. Qed.

(** An application that started has its subscription and its caches. *)
Lemma NewServer_ok (config : server.Config) (env : server.Env) (app : server.App) :
  server.NewServer config env = Go.Ok app ->
  server.NewNamespaceListener env = None
  /\ server.loadNamespaces env = Go.Ok (server.namespaceCachedRepository app)
  /\ server.loadRoles env = Go.Ok (server.rolesCachedRepository app)
  /\ server.listening app = true.
Proof.
  unfold server.NewServer.
  destruct (server.check _ (server.NewArtifactStorageFactory env)); simpl; [|discriminate].
  destruct (server.createDBProvider config env); simpl; [|discriminate].
  destruct (server.createApp config env) as [app'|e] eqn:Happ; simpl; [|discriminate].
  intros Heq. inversion Heq. subst app'.
  apply createApp_ok in Happ. tauto.
Qed.

Section OrderFacts.

Import server.

Lemma before_app (a b : Handler) (l1 l2 : list Handler) :
  In a l1 -> In b l2 -> before a b (l1 ++ l2).
Proof.
  intros Ha Hb. apply in_split in Ha. apply in_split in Hb.
  destruct Ha as (x1 & x2 & ->). destruct Hb as (y1 & y2 & ->).
  exists x1, (x2 ++ y1), y2. rewrite <- !app_assoc. simpl.
  reflexivity.
Qed.

Lemma gateSteps_no_user_step (config : Config) (h : Handler) :
  In h (gateSteps config ++ [NamespaceMiddleware]) -> resolvesUser h = false.
Proof.
  unfold gateSteps.
  destruct (DevMode config), (sharedBasicAuth (Auth config)); simpl;
    intros Hin; repeat (destruct Hin as [<-|Hin]; [reflexivity|]); contradiction.
Qed.

Lemma shared_gate_in_gateSteps (config : Config) (env : Env) (users : list (string * string)) :
  In (BasicAuth users)
     (gateSteps config ++ [NamespaceMiddleware] ++ identitySteps config env ++ serviceSteps config) ->
  In (BasicAuth users) (gateSteps config).
Proof.
  intros Hin. apply in_app_or in Hin. destruct Hin as [Hin|Hin]; [exact Hin|].
  exfalso. simpl in Hin. destruct Hin as [Hin|Hin]; [discriminate|].
  apply in_app_or in Hin. destruct Hin as [Hin|Hin].
  - unfold identitySteps in Hin.
    destruct (auth.IsAuthTypeOIDC (Auth config)).
    + destruct (NewOIDCClient env); simpl in Hin;
        repeat (destruct Hin as [Hin|Hin]; [discriminate|]); contradiction.
    + destruct (auth.IsAuthTypeUser (Auth config)); simpl in Hin;
        repeat (destruct Hin as [Hin|Hin]; [discriminate|]); contradiction.
  - simpl in Hin. repeat (destruct Hin as [Hin|Hin]; [discriminate|]). contradiction.
Qed.

End OrderFacts.

(** C1 (as amended): in the stack [createApp] registers, the namespace
    step precedes the per-user and the OIDC step, while the shared Basic
    Auth gate, when configured, precedes the namespace step.  A request
    that passes the gate (or meets none) and names a code absent from the
    cached repository is answered "namespace does not exist" whatever
    credentials it carries; a request the gate refuses is answered 401
    before the namespace is looked at. *)
Theorem namespace_check_position
  (config : server.Config) (env : server.Env) (app : server.App)
  (Happ : server.createApp config env = Go.Ok app) :
  (forall h, In h (server.stack app) -> server.resolvesUser h = true ->
             server.before server.NamespaceMiddleware h (server.stack app))
  /\ (forall users, In (server.BasicAuth users) (server.stack app) ->
        server.before (server.BasicAuth users) server.NamespaceMiddleware (server.stack app))
  /\ (forall caches code cr,
        repositories.GetByCode (middleware.namespaces caches) code = None ->
        server.passesGate (server.Auth config) cr = true ->
        server.serve app caches
          {| middleware.target := middleware.NamespacePath code; middleware.credentials := cr |}
        = middleware.namespaceNotFound code)
  /\ (forall caches code cr,
        server.passesGate (server.Auth config) cr = false ->
        server.serve app caches
          {| middleware.target := middleware.NamespacePath code; middleware.credentials := cr |}
        = middleware.Unauthorized).
Proof.
  pose proof (createApp_ok config env app Happ) as (_ & _ & _ & _ & Hstack).
  split; [|split; [|split]].
  - intros h Hin Hres. rewrite Hstack in *.
    rewrite app_assoc. rewrite app_assoc in Hin.
    apply in_app_or in Hin. destruct Hin as [Hin|Hin].
    + apply gateSteps_no_user_step in Hin. congruence.
    + apply before_app; [|exact Hin]. apply in_or_app. right. left. reflexivity.
  - intros users Hin. rewrite Hstack in *.
    apply before_app; [|left; reflexivity].
    exact (shared_gate_in_gateSteps config env users Hin).
  - intros caches code cr Hmiss Hgate.
    rewrite (serve_namespaced config env app caches code cr Happ).
    rewrite Hgate, Hmiss. reflexivity.
  - intros caches code cr Hgate.
    rewrite (serve_namespaced config env app caches code cr Happ).
    rewrite Hgate. reflexivity.
Qed.

Lemma namespace_check_position_witness :
  server.createApp userConfig healthyEnv = Go.Ok userApp
  /\ server.serve userApp testCaches (tokenRequest "no-such-token" "ghost")
     = middleware.namespaceNotFound "ghost".
Proof.
  split; [reflexivity|].
  apply (namespace_check_position userConfig healthyEnv userApp eq_refl); reflexivity.
Defined.

(** C1, the claim as worded fails: with a shared Basic Auth credential
    configured, the gate is registered before the namespace step, and a
    request without credentials that names an absent namespace is answered
    401, not "namespace does not exist". *)
Lemma shared_gate_answers_before_namespace_check :
  exists app,
    server.createApp gatedConfig healthyEnv = Go.Ok app
    /\ repositories.GetByCode (middleware.namespaces testCaches) "ghost" = None
    /\ server.serve app testCaches (anonymousRequest "ghost") = middleware.Unauthorized
    /\ server.serve app testCaches (anonymousRequest "ghost")
       <> middleware.namespaceNotFound "ghost"
    /\ server.isIdentityStep (server.BasicAuth [("admin", "secret")]) = true
    /\ server.before (server.BasicAuth [("admin", "secret")]) server.NamespaceMiddleware
         (server.stack app).
Proof.
  eexists. split; [vm_compute; reflexivity|].
  split; [reflexivity|].
  split; [vm_compute; reflexivity|].
  split; [vm_compute; discriminate|].
  split; [reflexivity|].
  exists [], [server.SetCookieRoute]. eexists. simpl. reflexivity.
Qed.

Section AuthorizationFacts.

Import server.

Lemma GetByCode_code (snapshot : list models.Namespace) (code : string) (ns : models.Namespace) :
  repositories.GetByCode snapshot code = Some ns -> models.Code ns = code /\ In ns snapshot.
Proof.
  unfold repositories.GetByCode. intros Hfind. apply find_some in Hfind.
  destruct Hfind as [Hin Hcode]. apply bool_decide_eq_true in Hcode. auto.
Qed.

Lemma GetByCode_exists (snapshot : list models.Namespace) (ns : models.Namespace) :
  In ns snapshot -> is_Some (repositories.GetByCode snapshot (models.Code ns)).
Proof.
  intros Hin. unfold repositories.GetByCode.
  destruct (List.find _ snapshot) as [ns'|] eqn:Hfind; [eauto|].
  exfalso. apply (find_none _ _ Hfind) in Hin.
  apply bool_decide_eq_false in Hin. auto.
Qed.

(** A user bound to an admin role is admin for the role repository. *)
Lemma IsAdmin_bound (roles : list models.Role) (user : string) :
  repositories.IsAdmin roles user = true <->
  exists r, In r roles /\ models.RoleAdmin r = true /\ user ∈ models.RoleUsers r.
Proof.
  unfold repositories.IsAdmin, repositories.rolesOf. rewrite existsb_exists. split.
  - intros (r & Hin & Hadm). apply filter_In in Hin. destruct Hin as [Hin Hu].
    apply bool_decide_eq_true in Hu. eauto.
  - intros (r & Hin & Hadm & Hu). exists r. split; [|exact Hadm].
    apply filter_In. split; [exact Hin|]. apply bool_decide_eq_true. exact Hu.
Qed.

Lemma permitted_admin (roles : list string) (code : string) :
  "admin" ∈ roles -> middleware.permitted roles code = true.
Proof.
  intros Hadm. unfold middleware.permitted, middleware.hasAdminRole.
  rewrite bool_decide_eq_true_2 by exact Hadm. reflexivity.
Qed.

(** The answer of the per-user scheme to a namespaced request. *)
Lemma serve_per_user (config : Config) (env : Env) (app : App)
  (caches : middleware.Caches) (code : string) (cr : middleware.Credentials) :
  createApp config env = Go.Ok app ->
  auth.IsAuthTypeOIDC (Auth config) = false ->
  auth.IsAuthTypeUser (Auth config) = true ->
  passesGate (Auth config) cr = true ->
  let req := {| middleware.target := middleware.NamespacePath code;
                middleware.credentials := cr |} in
  serve app caches req =
    match repositories.GetByCode (middleware.namespaces caches) code with
    | None => middleware.namespaceNotFound code
    | Some ns =>
        match middleware.authenticate (auth.AuthParsedUserPermissions (Auth config)) cr with
        | None => middleware.Unauthorized
        | Some user =>
            if middleware.permitted (auth.Roles user) code then
              middleware.Served {| middleware.request := req; middleware.namespace := Some ns;
                                   middleware.identity := Some (auth.Name user) |}
            else middleware.namespaceNotFound code
        end
    end.
Proof.
  intros Happ Hoidc Huser Hgate req.
  unfold req. rewrite (serve_namespaced config env app caches code cr Happ).
  rewrite Hgate.
  destruct (repositories.GetByCode (middleware.namespaces caches) code) as [ns|] eqn:Hns;
    [|reflexivity].
  apply GetByCode_code in Hns. destruct Hns as [Hcode _].
  unfold identitySteps. rewrite Hoidc, Huser. simpl.
  unfold middleware.NewBasicAuthMiddleware. simpl.
  destruct (middleware.authenticate _ cr) as [user|]; [|reflexivity].
  rewrite Hcode.
  destruct (middleware.permitted (auth.Roles user) code); reflexivity.
Qed.

(** The answer of the OIDC scheme to a namespaced request. *)
Lemma serve_oidc (config : Config) (env : Env) (app : App)
  (caches : middleware.Caches) (code : string) (cr : middleware.Credentials) :
  createApp config env = Go.Ok app ->
  auth.IsAuthTypeOIDC (Auth config) = true ->
  passesGate (Auth config) cr = true ->
  let req := {| middleware.target := middleware.NamespacePath code;
                middleware.credentials := cr |} in
  exists client,
    NewOIDCClient env = Go.Ok client
    /\ serve app caches req =
       match repositories.GetByCode (middleware.namespaces caches) code with
       | None => middleware.namespaceNotFound code
       | Some ns =>
           match cr with
           | middleware.BearerToken token =>
               match auth.Verify client token with
               | None => middleware.Unauthorized
               | Some user =>
                   if repositories.IsAdmin (middleware.roles caches) user
                      || bool_decide (code ∈ repositories.GetPermittedNamespaces
                                                (middleware.roles caches) user)
                   then middleware.Served
                          {| middleware.request := req; middleware.namespace := Some ns;
                             middleware.identity := Some user |}
                   else middleware.namespaceNotFound code
               end
           | _ => middleware.Unauthorized
           end
       end.
Proof.
  intros Happ Hoidc Hgate req.
  assert (Hclient : exists client, NewOIDCClient env = Go.Ok client).
  { revert Happ. unfold createApp.
    destruct (check _ (NewNamespaceListener env)); simpl; [|discriminate].
    destruct (Go.wrapping _ (repositories.NewNamespaceCachedRepository _)); simpl; [|discriminate].
    destruct (Go.wrapping _ (repositories.NewRoleCachedRepository _)); simpl; [|discriminate].
    rewrite Hoidc. destruct (NewOIDCClient env) as [client|]; simpl; [eauto|discriminate]. }
  destruct Hclient as [client Hclient]. exists client. split; [exact Hclient|].
  unfold req. rewrite (serve_namespaced config env app caches code cr Happ).
  rewrite Hgate.
  destruct (repositories.GetByCode (middleware.namespaces caches) code) as [ns|] eqn:Hns;
    [|reflexivity].
  apply GetByCode_code in Hns. destruct Hns as [Hcode _].
  unfold identitySteps. rewrite Hoidc, Hclient. simpl.
  unfold middleware.NewOIDCMiddleware. simpl.
  destruct cr as [|u p|token]; try reflexivity.
  destruct (auth.Verify client token) as [user|]; [|reflexivity].
  rewrite Hcode.
  destruct (repositories.IsAdmin (middleware.roles caches) user
            || bool_decide (code ∈ repositories.GetPermittedNamespaces
                                      (middleware.roles caches) user)); reflexivity.
Qed.

End AuthorizationFacts.

(** C2: under the per-user scheme, an authenticated user who asks for an
    existing namespace they are not permitted into and for a namespace
    that does not exist receives the same rejection in both cases: status
    404, reason code RESOURCE_DOES_NOT_EXIST and the message "unable to
    find namespace with code: <requested code>"; no other outcome marks
    the authorization miss. *)
Theorem existence_hiding
  (config : server.Config) (env : server.Env) (app : server.App)
  (caches : middleware.Caches) (cr : middleware.Credentials) (user : auth.YamlUserConfig)
  (c1 c2 : string) (ns1 : models.Namespace)
  (Happ : server.createApp config env = Go.Ok app)
  (Hoidc : auth.IsAuthTypeOIDC (server.Auth config) = false)
  (Huser : auth.IsAuthTypeUser (server.Auth config) = true)
  (Hgate : server.passesGate (server.Auth config) cr = true)
  (Hauth : middleware.authenticate
             (auth.AuthParsedUserPermissions (server.Auth config)) cr = Some user)
  (Hexists : repositories.GetByCode (middleware.namespaces caches) c1 = Some ns1)
  (Hdenied : middleware.permitted (auth.Roles user) c1 = false)
  (Hmissing : repositories.GetByCode (middleware.namespaces caches) c2 = None) :
  let rejection code :=
    middleware.Rejected 404
      (Go.ApiError "RESOURCE_DOES_NOT_EXIST" ("unable to find namespace with code: " +:+ code)) in
  server.serve app caches
    {| middleware.target := middleware.NamespacePath c1; middleware.credentials := cr |}
  = rejection c1
  /\ server.serve app caches
       {| middleware.target := middleware.NamespacePath c2; middleware.credentials := cr |}
     = rejection c2.
Proof.
  intros rejection. split.
  - rewrite (serve_per_user config env app caches c1 cr Happ Hoidc Huser Hgate).
    rewrite Hexists, Hauth, Hdenied. reflexivity.
  - rewrite (serve_per_user config env app caches c2 cr Happ Hoidc Huser Hgate).
    rewrite Hmissing. reflexivity.
Qed.

Lemma existence_hiding_witness :
  server.serve userApp testCaches (requestAs "user1" "user1password" "namespace3")
  = middleware.Rejected 404
      (Go.ApiError "RESOURCE_DOES_NOT_EXIST" "unable to find namespace with code: namespace3")
  /\ server.serve userApp testCaches (requestAs "user1" "user1password" "ghost")
     = middleware.Rejected 404
         (Go.ApiError "RESOURCE_DOES_NOT_EXIST" "unable to find namespace with code: ghost").
Proof.
  apply (existence_hiding userConfig healthyEnv userApp testCaches
           (middleware.BasicCredentials "user1" "user1password")
           (auth.mkUser "user1" ["ns:namespace1"; "ns:namespace2"] "user1password")
           "namespace3" "ghost" namespace3);
    reflexivity.
Defined.

(** C4: a user bound to a role flagged admin is let into every existing
    namespace, whatever other roles the user has: under the per-user
    scheme when "admin" is among the user's roles, under the OIDC scheme
    when the role repository binds the user to an admin role. *)
Theorem admin_override
  (config : server.Config) (env : server.Env) (app : server.App)
  (caches : middleware.Caches) (cr : middleware.Credentials)
  (code : string) (ns : models.Namespace)
  (Happ : server.createApp config env = Go.Ok app)
  (Hgate : server.passesGate (server.Auth config) cr = true)
  (Hexists : repositories.GetByCode (middleware.namespaces caches) code = Some ns) :
  let req := {| middleware.target := middleware.NamespacePath code;
                middleware.credentials := cr |} in
  (auth.IsAuthTypeOIDC (server.Auth config) = false ->
   auth.IsAuthTypeUser (server.Auth config) = true ->
   forall user,
     middleware.authenticate (auth.AuthParsedUserPermissions (server.Auth config)) cr
     = Some user ->
     "admin" ∈ auth.Roles user ->
     server.serve app caches req
     = middleware.Served {| middleware.request := req; middleware.namespace := Some ns;
                            middleware.identity := Some (auth.Name user) |})
  /\ (auth.IsAuthTypeOIDC (server.Auth config) = true ->
      forall client token user role,
        server.NewOIDCClient env = Go.Ok client ->
        cr = middleware.BearerToken token ->
        auth.Verify client token = Some user ->
        In role (middleware.roles caches) ->
        models.RoleAdmin role = true ->
        user ∈ models.RoleUsers role ->
        server.serve app caches req
        = middleware.Served {| middleware.request := req; middleware.namespace := Some ns;
                               middleware.identity := Some user |}).
Proof.
  intros req. split.
  - intros Hoidc Huser user Hauth Hadmin. unfold req.
    rewrite (serve_per_user config env app caches code cr Happ Hoidc Huser Hgate).
    rewrite Hexists, Hauth, (permitted_admin _ code Hadmin). reflexivity.
  - intros Hoidc client token user role Hclient Hcr Hverify Hin Hadm Hbound. unfold req.
    destruct (serve_oidc config env app caches code cr Happ Hoidc Hgate)
      as (client' & Hclient' & Hserve).
    rewrite Hserve, Hexists. rewrite Hclient in Hclient'. inversion Hclient'. subst client'.
    rewrite Hcr. rewrite Hverify.
    assert (Hia : repositories.IsAdmin (middleware.roles caches) user = true).
    { apply IsAdmin_bound. eauto. }
    rewrite Hia. reflexivity.
Qed.

Lemma admin_override_witness :
  server.serve userApp testCaches (requestAs "user3" "user3password" "namespace1")
  = servedWith (requestAs "user3" "user3password" "namespace1") namespace1 "user3".
Proof.
  pose proof (admin_override userConfig healthyEnv userApp testCaches
                (middleware.BasicCredentials "user3" "user3password")
                "namespace1" namespace1 eq_refl eq_refl eq_refl) as H.
  cbv zeta in H. destruct H as [H _].
  apply (H eq_refl eq_refl (auth.mkUser "user3" ["admin"] "user3password") eq_refl).
  apply list_elem_of_here.
Defined.

(** The OIDC scheme on the sample roles: the admin passes everywhere, the
    other user only where a role grants the namespace. *)
Example oidc_scenario :
  exists app,
    server.createApp oidcConfig healthyEnv = Go.Ok app
    /\ server.serve app testCaches (tokenRequest "carol-token" "namespace3")
       = servedWith (tokenRequest "carol-token" "namespace3") namespace3 "carol"
    /\ server.serve app testCaches (tokenRequest "alice-token" "namespace1")
       = servedWith (tokenRequest "alice-token" "namespace1") namespace1 "alice"
    /\ server.serve app testCaches (tokenRequest "alice-token" "namespace3")
       = middleware.namespaceNotFound "namespace3"
    /\ server.serve app testCaches (tokenRequest "forged" "namespace1")
       = middleware.Unauthorized.
Proof. eexists. repeat split; vm_compute; reflexivity. Qed.

(** ** Namespace administration *)

Section NamespaceFacts.

Import namespace.

Lemma usedByAnother_holder (store : list models.Namespace) (self : option N)
  (holder : models.Namespace) :
  In holder store -> Some (models.ID holder) <> self ->
  usedByAnother store self (models.Code holder) = true.
Proof.
  intros Hin Hne. unfold usedByAnother. apply existsb_exists.
  exists holder. split; [exact Hin|].
  rewrite bool_decide_eq_true_2 by reflexivity.
  rewrite (bool_decide_eq_false_2 _ Hne). reflexivity.
Qed.

End NamespaceFacts.

(** C5: when the store holds a namespace with code C, creating a
    namespace with code C, and updating another namespace of the store to
    code C, both fail with a ConstraintViolation and return the store as
    it was. *)
Theorem duplicate_code_rejected
  (store : list models.Namespace) (holder : models.Namespace)
  (Hheld : In holder store) :
  (forall description,
     (namespace.CreateNamespace store (models.Code holder) description).1 = store
     /\ namespace.isConstraintViolation
          (namespace.CreateNamespace store (models.Code holder) description).2)
  /\ (forall id target description,
        repositories.GetByID store id = Some target ->
        models.ID holder <> id ->
        (namespace.UpdateNamespace store id (models.Code holder) description).1 = store
        /\ namespace.isConstraintViolation
             (namespace.UpdateNamespace store id (models.Code holder) description).2).
Proof.
  split.
  - intros description. unfold namespace.CreateNamespace.
    destruct (namespace.ValidateNamespace (models.Code holder)); simpl.
    + rewrite (usedByAnother_holder store None holder Hheld) by discriminate.
      simpl. split; [reflexivity|]. eexists. reflexivity.
    + split; [reflexivity|]. eexists. reflexivity.
  - intros id target description Htarget Hother. unfold namespace.UpdateNamespace.
    rewrite Htarget.
    destruct (namespace.ValidateNamespace (models.Code holder)); simpl.
    + rewrite (usedByAnother_holder store (Some id) holder Hheld) by congruence.
      simpl. split; [reflexivity|]. eexists. reflexivity.
    + split; [reflexivity|]. eexists. reflexivity.
Qed.

Lemma duplicate_code_rejected_witness :
  (namespace.UpdateNamespace updateTestStore 2 "default" "test namespace updated").1
  = updateTestStore
  /\ namespace.isConstraintViolation
       (namespace.UpdateNamespace updateTestStore 2 "default" "test namespace updated").2.
Proof.
  pose proof (duplicate_code_rejected updateTestStore
                (models.mkNamespace 1 "default" "" (Some 0))
                (or_introl eq_refl)) as [_ H].
  apply (H 2%N (models.mkNamespace 2 "test2" "test namespace 2 description" (Some 0))
           "test namespace updated" eq_refl).
  discriminate.
Defined.

(** The three rejected updates of the integration test, and one that
    succeeds. *)
Example update_test_cases :
  namespace.UpdateNamespace updateTestStore 10 "testUpdated" "test namespace updated"
  = (updateTestStore, namespace.Failed (namespace.NotFound "namespace not found by id"))
  /\ namespace.UpdateNamespace updateTestStore 2 "" "test namespace updated"
     = (updateTestStore,
        namespace.Failed (namespace.ConstraintViolation "The namespace code is invalid."))
  /\ namespace.UpdateNamespace updateTestStore 2 "default" "test namespace updated"
     = (updateTestStore,
        namespace.Failed (namespace.ConstraintViolation "The namespace code is already in use."))
  /\ (namespace.UpdateNamespace updateTestStore 2 "test2Updated" "updated").1
     = [ models.mkNamespace 1 "default" "" (Some 0);
         models.mkNamespace 2 "test2Updated" "updated" (Some 0) ].
Proof. repeat split; vm_compute; reflexivity. Qed.

(** * Further properties of the modelled code *)

(** ** Params repository: what a call leaves behind *)

Section CreateBatchOutcome.

Import ParamRepository.

(** The outcome of a call none of whose statements fails. *)
Lemma CreateBatch_outcome (db : DB) (n : nat) (ps : list Param) :
  (0 < n)%nat -> insertAccepted db n ps -> queryFault db = None ->
  let acc := fold_left insertOrIgnore ps (params db, 0) in
  (omap (conflictOf acc.1) ps = [] /\ CreateBatch db n ps = (committed db acc, None))
  \/ (omap (conflictOf acc.1) ps <> []
      /\ CreateBatch db n ps
         = (db, Some (Go.ParamConflictError
                        ("conflicting params found: "
                         +:+ conflictsString (omap (conflictOf acc.1) ps))))).
Proof.
  intros Hn Hf Hq acc.
  rewrite (CreateBatch_after_insert db n ps Hn Hf). fold acc. rewrite Hq.
  destruct (decide (0 = Z.of_nat (length ps))) as [Hempty|Hsome].
  - left. split; [|reflexivity]. destruct ps; [reflexivity | simpl in Hempty; lia].
  - destruct (decide (0 < length (omap (conflictOf acc.1) ps))%nat) as [Hpos|Hzero].
    + right. split; [|reflexivity]. apply length_pos_not_nil. exact Hpos.
    + left. split; [|reflexivity].
      destruct (omap (conflictOf acc.1) ps); [reflexivity|]. simpl in Hzero. lia.
Qed.

(** A call that returns nil stored the rows it was given. *)
Lemma CreateBatch_nil_stored (db : DB) (n : nat) (ps : list Param) :
  (0 < n)%nat -> (CreateBatch db n ps).2 = None ->
  let acc := fold_left insertOrIgnore ps (params db, 0) in
  (CreateBatch db n ps).1 = committed db acc
  /\ insertAccepted db n ps
  /\ forall p, In p ps -> acc.1 !! pk p = Some (Value p).
Proof.
  intros Hn Hnil acc.
  destruct (insertAccepted_dec db n ps) as [Hf|Hf].
  2:{ destruct (CreateBatch_insert_refused db n ps Hf) as [e He].
      rewrite He in Hnil. discriminate. }
  rewrite (CreateBatch_after_insert db n ps Hn Hf) in *. fold acc in Hnil |- *.
  destruct (decide (0 = Z.of_nat (length ps))) as [Hempty|Hsome].
  - split; [reflexivity|]. split; [exact Hf|].
    destruct ps; [intros p [] | simpl in Hempty; lia].
  - destruct (queryFault db); [discriminate|].
    destruct (decide (0 < length (omap (conflictOf acc.1) ps))%nat) as [Hpos|Hzero];
      [discriminate|].
    split; [reflexivity|]. split; [exact Hf|].
    intros p Hp. destruct (insert_covers ps (params db, 0) p Hp) as [w Hw].
    fold acc in Hw. rewrite Hw. f_equal.
    assert (Hnilc : omap (conflictOf acc.1) ps = []).
    { destruct (omap (conflictOf acc.1) ps); [reflexivity|]. simpl in Hzero. lia. }
    rewrite omap_conflict_nil in Hnilc. exact (Hnilc p Hp w Hw).
Qed.

End CreateBatchOutcome.

(** X1: the batch size decides which INSERT statements are sent and
    nothing else: for two positive batch sizes whose statements the driver
    all accepts, [CreateBatch] returns the same error and leaves the same
    database. *)
Theorem CreateBatch_batch_size_irrelevant
  (db : ParamRepository.DB) (n m : nat) (ps : list ParamRepository.Param)
  (Hn : (0 < n)%nat) (Hm : (0 < m)%nat)
  (Haccn : ParamRepository.insertAccepted db n ps)
  (Haccm : ParamRepository.insertAccepted db m ps) :
  ParamRepository.CreateBatch db n ps = ParamRepository.CreateBatch db m ps.
Proof.
  rewrite (CreateBatch_after_insert db n ps Hn Haccn),
          (CreateBatch_after_insert db m ps Hm Haccm). reflexivity.
Qed.

Lemma CreateBatch_batch_size_irrelevant_witness :
  ParamRepository.CreateBatch storedParamsDB 1 duplicateBatch
  = ParamRepository.CreateBatch storedParamsDB 100 duplicateBatch.
Proof.
  apply (CreateBatch_batch_size_irrelevant storedParamsDB 1 100 duplicateBatch);
    try lia; intros batch _; reflexivity.
Defined.

(** With a driver that refuses a statement of more than one row the batch
    size does matter. *)
Example CreateBatch_statement_limit :
  (ParamRepository.CreateBatch limitedParamsDB 1 duplicateBatch).2 = None
  /\ (ParamRepository.CreateBatch limitedParamsDB 100 duplicateBatch).2
     = Some (Go.Wrap (Go.Opaque "too many SQL variables") "error creating params in batch")
  /\ (ParamRepository.CreateBatch limitedParamsDB 100 duplicateBatch).1 = limitedParamsDB.
Proof. repeat split; vm_compute; reflexivity. Qed.

(** X2: whatever the outcome, [CreateBatch] never removes a stored param
    and never changes its value. *)
Theorem CreateBatch_keeps_stored_rows
  (db : ParamRepository.DB) (n : nat) (ps : list ParamRepository.Param)
  (k : string * string) (v : string)
  (Hn : (0 < n)%nat)
  (Hk : ParamRepository.params db !! k = Some v) :
  ParamRepository.params (ParamRepository.CreateBatch db n ps).1 !! k = Some v.
Proof.
  destruct (insertAccepted_dec db n ps) as [Hf|Hf].
  - rewrite (CreateBatch_after_insert db n ps Hn Hf).
    assert (Hkeep : (fold_left ParamRepository.insertOrIgnore ps
                       (ParamRepository.params db, 0)).1 !! k = Some v)
      by (apply insert_keeps; exact Hk).
    repeat match goal with
           | |- context [decide ?P] => destruct (decide P)
           | |- context [ParamRepository.queryFault db] =>
               destruct (ParamRepository.queryFault db)
           end; simpl; assumption.
  - destruct (CreateBatch_insert_refused db n ps Hf) as [e He]. rewrite He. exact Hk.
Qed.

Lemma CreateBatch_keeps_stored_rows_witness :
  ParamRepository.params
    (ParamRepository.CreateBatch storedParamsDB 1 clashingBatch).1 !! ("run1", "lr")
  = Some "0.1".
Proof.
  apply (CreateBatch_keeps_stored_rows storedParamsDB 1 clashingBatch ("run1", "lr") "0.1");
    [lia | reflexivity].
Defined.

(** X3: a nil return is a guarantee: every input param is then stored
    with exactly its value, and the keys of the table are the keys stored
    before together with the keys of the batch. *)
Theorem CreateBatch_nil_postcondition
  (db : ParamRepository.DB) (n : nat) (ps : list ParamRepository.Param)
  (Hn : (0 < n)%nat)
  (Hnil : (ParamRepository.CreateBatch db n ps).2 = None) :
  let db' := (ParamRepository.CreateBatch db n ps).1 in
  (forall p, In p ps ->
     ParamRepository.params db' !! ParamRepository.pk p = Some (ParamRepository.Value p))
  /\ (forall k, is_Some (ParamRepository.params db' !! k) <->
                is_Some (ParamRepository.params db !! k)
                \/ exists p, In p ps /\ ParamRepository.pk p = k).
Proof.
  intros db'. destruct (CreateBatch_nil_stored db n ps Hn Hnil) as (Hdb & _ & Hall).
  subst db'. rewrite Hdb. simpl. split; [exact Hall|].
  intros k. split.
  - intros [w Hw]. apply insert_origin in Hw. simpl in Hw.
    destruct Hw as [Hw|(_ & q & Hq & Hpk & _)]; [left; eauto | right; eauto].
  - intros [[w Hw]|(p & Hp & <-)].
    + exists w. apply insert_keeps. exact Hw.
    + apply insert_covers. exact Hp.
Qed.

Lemma CreateBatch_nil_postcondition_witness :
  ParamRepository.params
    (ParamRepository.CreateBatch storedParamsDB 100 duplicateBatch).1 !! ("run1", "depth")
  = Some "3".
Proof.
  pose proof (CreateBatch_nil_postcondition storedParamsDB 100 duplicateBatch
                ltac:(lia) eq_refl) as [H _].
  apply (H (ParamRepository.mkParam "depth" "3" "run1")). right. left. reflexivity.
Defined.

(** X4: retrying a call that returned nil is harmless: the same batch
    sent again with the same batch size returns nil and leaves the table
    as the first call left it. *)
Theorem CreateBatch_retry_idempotent
  (db : ParamRepository.DB) (n : nat) (ps : list ParamRepository.Param)
  (Hn : (0 < n)%nat)
  (Hquery : ParamRepository.queryFault db = None)
  (Hnil : (ParamRepository.CreateBatch db n ps).2 = None) :
  let db' := (ParamRepository.CreateBatch db n ps).1 in
  (ParamRepository.CreateBatch db' n ps).2 = None
  /\ ParamRepository.params (ParamRepository.CreateBatch db' n ps).1
     = ParamRepository.params db'.
Proof.
  intros db'. destruct (CreateBatch_nil_stored db n ps Hn Hnil) as (Hdb & Hf & Hall).
  set (acc := fold_left ParamRepository.insertOrIgnore ps (ParamRepository.params db, 0)) in *.
  assert (Hf' : ParamRepository.insertAccepted db' n ps)
    by (subst db'; rewrite Hdb; exact Hf).
  assert (Hq' : ParamRepository.queryFault db' = None) by (subst db'; rewrite Hdb; exact Hquery).
  assert (Hp' : ParamRepository.params db' = acc.1) by (subst db'; rewrite Hdb; reflexivity).
  assert (Hsame : fold_left ParamRepository.insertOrIgnore ps (ParamRepository.params db', 0)
                  = (ParamRepository.params db', 0)).
  { apply insert_all_present. intros p Hp. simpl. rewrite Hp', (Hall p Hp). eauto. }
  destruct (CreateBatch_outcome db' n ps Hn Hf' Hq') as [[_ Hok]|[Hclash _]].
  - rewrite Hok, Hsame. simpl. auto.
  - exfalso. apply Hclash. rewrite Hsame. simpl.
    apply omap_conflict_nil. intros p Hp old Ho.
    rewrite Hp', (Hall p Hp) in Ho. congruence.
Qed.

Lemma CreateBatch_retry_idempotent_witness :
  (ParamRepository.CreateBatch
     (ParamRepository.CreateBatch limitedParamsDB 1 duplicateBatch).1 1 duplicateBatch).2
  = None.
Proof.
  apply (CreateBatch_retry_idempotent limitedParamsDB 1 duplicateBatch);
    try lia; reflexivity.
Defined.

(** X5: what [findConflictingParams] reports is what its comment says:
    a conflict is reported exactly for an input param whose (run_uuid,
    key) is stored with a different value, and it carries that stored
    value and the input value; a param whose key is not stored, or is
    stored with the same value, is never reported. *)
Theorem findConflictingParams_report
  (tx : ParamRepository.DB) (ps : list ParamRepository.Param)
  (Hquery : ParamRepository.queryFault tx = None) :
  exists conflicts,
    ParamRepository.findConflictingParams tx ps = Go.Ok conflicts
    /\ forall c, In c conflicts <->
         exists p, In p ps
           /\ ParamRepository.params tx !! ParamRepository.pk p
              = Some (ParamRepository.OldValue c)
           /\ ParamRepository.OldValue c <> ParamRepository.Value p
           /\ c = {| ParamRepository.cRunID := ParamRepository.RunID p;
                     ParamRepository.cKey := ParamRepository.Key p;
                     ParamRepository.OldValue := ParamRepository.OldValue c;
                     ParamRepository.NewValue := ParamRepository.Value p |}.
Proof.
  unfold ParamRepository.findConflictingParams. rewrite Hquery.
  eexists. split; [reflexivity|].
  intros c. rewrite <- list_elem_of_In, list_elem_of_omap. split.
  - intros (p & Hp & Hc). apply list_elem_of_In in Hp. exists p. split; [exact Hp|].
    unfold ParamRepository.conflictOf in Hc.
    destruct (ParamRepository.params tx !! ParamRepository.pk p) as [old|]; [|discriminate].
    destruct (decide (ParamRepository.Value p = old)); [discriminate|].
    inversion Hc. subst c. simpl. repeat split; congruence.
  - intros (p & Hp & Hold & Hne & Hc). exists p. split; [apply list_elem_of_In; exact Hp|].
    unfold ParamRepository.conflictOf. rewrite Hold.
    destruct (decide (ParamRepository.Value p = ParamRepository.OldValue c)); [congruence|].
    f_equal. symmetry. exact Hc.
Qed.

Lemma findConflictingParams_report_witness :
  exists conflicts,
    ParamRepository.findConflictingParams storedParamsDB clashingBatch = Go.Ok conflicts.
Proof.
  destruct (findConflictingParams_report storedParamsDB clashingBatch eq_refl)
    as (conflicts & Hc & _).
  exists conflicts. exact Hc.
Defined.



(** ** Project service: the activity map *)

Section BucketFacts.

Import Project.

Variable Format : Z -> string.

Lemma increment_lookup (m : gmap string Z) (key k : string) :
  increment key m !! k
  = if decide (k = key) then Some (default 0 (m !! key) + 1) else m !! k.
Proof.
  unfold increment. destruct (decide (k = key)) as [->|Hne].
  - apply lookup_insert_eq.
  - apply lookup_insert_ne. congruence.
Qed.

Lemma countRun_activity (tz : Z) (st : Counters) (r : Run) :
  activity (countRun Format tz st r)
  = increment (activityKey Format (StartTime r) tz) (activity st).
Proof.
  unfold countRun.
  destruct (decide (RunLifecycleStage r = LifecycleStageDeleted));
    [reflexivity|].
  destruct (decide (RunStatus r = StatusRunning)); reflexivity.
Qed.

Lemma bucketSize_nonneg (tz : Z) (k : string) (runs : list Run) :
  0 <= ProjectFacts.bucketSize Format tz k runs.
Proof. unfold ProjectFacts.bucketSize. lia. Qed.

Lemma bucketSize_cons (tz : Z) (k : string) (r : Run) (runs : list Run) :
  ProjectFacts.bucketSize Format tz k (r :: runs)
  = (if decide (k = activityKey Format (StartTime r) tz) then 1 else 0)
    + ProjectFacts.bucketSize Format tz k runs.
Proof.
  unfold ProjectFacts.bucketSize. simpl.
  destruct (decide (k = activityKey Format (StartTime r) tz)) as [->|Hne].
  - rewrite bool_decide_eq_true_2 by reflexivity. simpl length. lia.
  - rewrite bool_decide_eq_false_2 by congruence. lia.
Qed.

Lemma fold_countRun_bucket (tz : Z) (k : string) (runs : list Run) :
  forall st,
    activity (fold_left (countRun Format tz) runs st) !! k
    = if decide (ProjectFacts.bucketSize Format tz k runs = 0) then activity st !! k
      else Some (default 0 (activity st !! k) + ProjectFacts.bucketSize Format tz k runs).
Proof.
  induction runs as [|r runs IH]; intros st.
  - simpl. reflexivity.
  - simpl fold_left. rewrite IH, countRun_activity, increment_lookup, bucketSize_cons.
    pose proof (bucketSize_nonneg tz k runs) as Hb.
    destruct (decide (k = activityKey Format (StartTime r) tz)) as [->|Hne];
      repeat case_decide; simpl; try lia; try reflexivity; f_equal; lia.
Qed.

Lemma filter_length_Permutation {A} (f : A -> bool) (l l' : list A) :
  Permutation l l' -> length (List.filter f l) = length (List.filter f l').
Proof.
  induction 1 as [|x l l' _ IH|x y l|l l' l'' _ IH1 _ IH2]; simpl.
  - reflexivity.
  - destruct (f x); simpl; congruence.
  - destruct (f x), (f y); reflexivity.
  - congruence.
Qed.

Lemma countRuns_activity (tz : Z) (runs : list Run) (k : string) :
  activity (countRuns Format tz runs) !! k
  = if decide (ProjectFacts.bucketSize Format tz k runs = 0) then None
    else Some (ProjectFacts.bucketSize Format tz k runs).
Proof.
  unfold countRuns. rewrite fold_countRun_bucket. simpl.
  rewrite lookup_empty. simpl. reflexivity.
Qed.

Lemma countRuns_Permutation (tz : Z) (runs runs' : list Run) :
  Permutation runs runs' -> countRuns Format tz runs = countRuns Format tz runs'.
Proof.
  intros Hperm.
  destruct (countRuns_spec Format tz runs) as (_ & Hb & Hc).
  destruct (countRuns_spec Format tz runs') as (_ & Hb' & Hc').
  assert (Hact : activity (countRuns Format tz runs) = activity (countRuns Format tz runs')).
  { apply map_eq. intros k. rewrite !countRuns_activity.
    unfold ProjectFacts.bucketSize.
    rewrite (filter_length_Permutation _ runs runs' Hperm). reflexivity. }
  rewrite (filter_length_Permutation isArchivedRun runs runs' Hperm) in Hb.
  rewrite (filter_length_Permutation isActiveRun runs runs' Hperm) in Hc.
  rewrite <- Hb' in Hb. rewrite <- Hc' in Hc.
  destruct (countRuns Format tz runs), (countRuns Format tz runs'). simpl in *.
  congruence.
Qed.

End BucketFacts.

(** X7: in the activity map every bucket holds the number of runs whose
    start time falls into it, and a bucket no run falls into has no entry
    (the map never carries a zero). *)
Theorem GetProjectActivity_buckets
  (Format : Z -> string) (s : Project.Service) (namespaceID : N) (tzOffset : Z)
  (runs : list Project.Run) (n : Z)
  (Hruns : Project.runRepository_GetByNamespaceID s namespaceID = Go.Ok runs)
  (Hexps : Project.experimentRepository_GetCountOfActiveExperiments s namespaceID = Go.Ok n) :
  exists pa,
    (Project.GetProjectActivity Format s namespaceID tzOffset).2 = Go.Ok pa
    /\ forall key,
         Project.ActivityMap pa !! key
         = if decide (ProjectFacts.bucketSize Format tzOffset key runs = 0) then None
           else Some (ProjectFacts.bucketSize Format tzOffset key runs).
Proof.
  unfold Project.GetProjectActivity, Project.perform, Project.orFail, Project.bind, Project.ret.
  rewrite Hruns, Hexps. simpl. eexists. split; [reflexivity|]. simpl.
  intros key. apply countRuns_activity.
Qed.

Lemma GetProjectActivity_buckets_witness :
  exists pa,
    (Project.GetProjectActivity Project.FormatUTC sampleService 1%N 0).2 = Go.Ok pa
    /\ Project.ActivityMap pa !! "2023-11-14T22:00:00" = Some 2
    /\ Project.ActivityMap pa !! "2023-11-14T21:00:00" = None.
Proof.
  destruct (GetProjectActivity_buckets Project.FormatUTC sampleService 1%N 0 sampleRuns 2
              eq_refl eq_refl) as (pa & Hpa & Hkeys).
  exists pa. split; [exact Hpa|].
  split; rewrite Hkeys; vm_compute; reflexivity.
Defined.

(** X8: the activity report does not depend on the order in which the
    run repository returns the runs. *)
Theorem GetProjectActivity_order_independent
  (Format : Z -> string) (s s' : Project.Service) (namespaceID : N) (tzOffset : Z)
  (runs runs' : list Project.Run) (n : Z)
  (Hruns : Project.runRepository_GetByNamespaceID s namespaceID = Go.Ok runs)
  (Hruns' : Project.runRepository_GetByNamespaceID s' namespaceID = Go.Ok runs')
  (Hexps : Project.experimentRepository_GetCountOfActiveExperiments s namespaceID = Go.Ok n)
  (Hexps' : Project.experimentRepository_GetCountOfActiveExperiments s' namespaceID = Go.Ok n)
  (Hperm : Permutation runs runs') :
  Project.GetProjectActivity Format s namespaceID tzOffset
  = Project.GetProjectActivity Format s' namespaceID tzOffset.
Proof.
  unfold Project.GetProjectActivity, Project.perform, Project.orFail, Project.bind, Project.ret.
  rewrite Hruns, Hruns', Hexps, Hexps'. simpl.
  rewrite (countRuns_Permutation Format tzOffset runs runs' Hperm).
  rewrite (Permutation_length Hperm). reflexivity.
Qed.

Lemma GetProjectActivity_order_independent_witness :
  Project.GetProjectActivity Project.FormatUTC sampleService 1%N 0
  = Project.GetProjectActivity Project.FormatUTC shuffledService 1%N 0.
Proof.
  apply (GetProjectActivity_order_independent Project.FormatUTC sampleService shuffledService
           1%N 0 sampleRuns (rev sampleRuns) 2); try reflexivity.
  apply Permutation_rev.
Defined.

Section CountFacts.

Import Project.

Lemma archived_active_disjoint (runs : list Run) :
  (length (List.filter isArchivedRun runs) + length (List.filter isActiveRun runs)
   <= length runs)%nat.
Proof.
  induction runs as [|r runs IH]; simpl; [lia|].
  unfold isActiveRun at 1. destruct (isArchivedRun r); simpl.
  - lia.
  - destruct (bool_decide (RunStatus r = StatusRunning)); simpl; lia.
Qed.

Lemma filter_length_le {A} (f : A -> bool) (l : list A) :
  (length (List.filter f l) <= length l)%nat.
Proof. induction l as [|x l IH]; simpl; [lia|]. destruct (f x); simpl; lia. Qed.

End CountFacts.

(** X19: the counters of the activity report are consistent: active and
    archived runs are counted apart, so their sum never exceeds NumRuns,
    and every bucket of the activity map holds at least one and at most
    NumRuns runs. *)
Theorem GetProjectActivity_counts_bounded
  (Format : Z -> string) (s : Project.Service) (namespaceID : N) (tzOffset : Z)
  (runs : list Project.Run) (n : Z)
  (Hruns : Project.runRepository_GetByNamespaceID s namespaceID = Go.Ok runs)
  (Hexps : Project.experimentRepository_GetCountOfActiveExperiments s namespaceID = Go.Ok n) :
  exists pa,
    (Project.GetProjectActivity Format s namespaceID tzOffset).2 = Go.Ok pa
    /\ 0 <= Project.NumActiveRuns pa
    /\ 0 <= Project.NumArchivedRuns pa
    /\ Project.NumActiveRuns pa + Project.NumArchivedRuns pa <= Project.NumRuns pa
    /\ forall key v, Project.ActivityMap pa !! key = Some v -> 1 <= v <= Project.NumRuns pa.
Proof.
  unfold Project.GetProjectActivity, Project.perform, Project.orFail, Project.bind, Project.ret.
  rewrite Hruns, Hexps. simpl. eexists. split; [reflexivity|]. simpl.
  destruct (countRuns_spec Format tzOffset runs) as (_ & Hb & Hc).
  rewrite Hb, Hc. pose proof (archived_active_disjoint runs) as Hd.
  split; [lia|]. split; [lia|]. split; [lia|].
  intros key v Hv. rewrite countRuns_activity in Hv.
  destruct (decide (ProjectFacts.bucketSize Format tzOffset key runs = 0)) as [Hz|Hnz];
    [discriminate|].
  inversion Hv. subst v.
  pose proof (bucketSize_nonneg Format tzOffset key runs) as Hnn.
  split; [lia|]. unfold ProjectFacts.bucketSize.
  pose proof (filter_length_le
                (fun r => bool_decide
                            (Project.activityKey Format (Project.StartTime r) tzOffset = key))
                runs) as Hle.
  lia.
Qed.

Lemma GetProjectActivity_counts_bounded_witness :
  exists pa,
    (Project.GetProjectActivity Project.FormatUTC sampleService 1%N 0).2 = Go.Ok pa
    /\ Project.NumActiveRuns pa + Project.NumArchivedRuns pa <= Project.NumRuns pa.
Proof.
  destruct (GetProjectActivity_counts_bounded Project.FormatUTC sampleService 1%N 0
              sampleRuns 2 eq_refl eq_refl) as (pa & Hpa & _ & _ & Hsum & _).
  exists pa. split; [exact Hpa | exact Hsum].
Defined.

Section OffsetFacts.

Lemma wrap64_small (z : Z) : - 2 ^ 63 <= z < 2 ^ 63 -> Go.wrap64 z = z.
Proof.
  intros Hz. unfold Go.wrap64. rewrite Z.mod_small by lia. lia.
Qed.

End OffsetFacts.

(** X9: for an offset of at most 153722867 minutes in either direction
    the multiplication by [time.Minute] does not overflow, and the bucket
    of a run is the bucket of the start time moved back by the offset. *)
Theorem activityKey_offset
  (Format : Z -> string) (startTime tzOffset : Z)
  (Hrange : -153722867 <= tzOffset <= 153722867) :
  Project.activityKey Format startTime tzOffset
  = Format ((startTime - tzOffset * 60000) * 1000000).
Proof.
  unfold Project.activityKey.
  rewrite (wrap64_small (- tzOffset)) by lia.
  rewrite wrap64_small by lia.
  f_equal. lia.
Qed.

Lemma activityKey_offset_witness :
  Project.activityKey Project.FormatUTC 1700000000000 (-120)
  = Project.FormatUTC ((1700000000000 - (-120) * 60000) * 1000000).
Proof. apply (activityKey_offset Project.FormatUTC 1700000000000 (-120)). lia. Defined.

(** Past that bound the product wraps around. *)
Example activityKey_offset_overflow :
  Go.wrap64 (Go.wrap64 (- 153722868) * 60000000000) = 9223371993709551616.
Proof. reflexivity. Qed.

(** ** Project service: which repositories are called *)

(** X10: [GetProjectActivity] stops at the first repository that fails:
    when the run fetch fails the experiment repository is not called, and
    either failure is returned as an internal error that embeds the text
    of the cause; when both answer, the two calls are made in that order
    and NumExperiments is the count the experiment repository gave. *)
Theorem GetProjectActivity_failures
  (Format : Z -> string) (s : Project.Service) (namespaceID : N) (tzOffset : Z) :
  match Project.runRepository_GetByNamespaceID s namespaceID with
  | Go.Err e =>
      Project.GetProjectActivity Format s namespaceID tzOffset
      = ([Project.RunGetByNamespaceID namespaceID],
         Go.Err (api.NewInternalError ("error getting runs: " +:+ Go.Error e)))
  | Go.Ok runs =>
      match Project.experimentRepository_GetCountOfActiveExperiments s namespaceID with
      | Go.Err e =>
          Project.GetProjectActivity Format s namespaceID tzOffset
          = ([Project.RunGetByNamespaceID namespaceID;
              Project.ExperimentGetCountOfActiveExperiments namespaceID],
             Go.Err (api.NewInternalError
                       ("error getting number of active experiments: " +:+ Go.Error e)))
      | Go.Ok n =>
          exists pa,
            Project.GetProjectActivity Format s namespaceID tzOffset
            = ([Project.RunGetByNamespaceID namespaceID;
                Project.ExperimentGetCountOfActiveExperiments namespaceID], Go.Ok pa)
            /\ Project.NumExperiments pa = n
      end
  end.
Proof.
  unfold Project.GetProjectActivity, Project.perform, Project.orFail, Project.bind, Project.ret.
  destruct (Project.runRepository_GetByNamespaceID s namespaceID) as [runs|e]; simpl;
    [|reflexivity].
  destruct (Project.experimentRepository_GetCountOfActiveExperiments s namespaceID) as [n|e];
    simpl; [|reflexivity].
  eexists. split; reflexivity.
Qed.

(** X11: every repository call made by [GetProjectActivity] and by
    [GetProjectParams] is made for the namespace the method was given. *)
Theorem project_calls_are_namespace_scoped
  (Format : Z -> string)
  (Normalise : Project.GetProjectParamsRequest -> Project.GetProjectParamsRequest)
  (Validate : Project.GetProjectParamsRequest -> option Go.error)
  (s : Project.Service) (namespaceID : N) (tzOffset : Z)
  (req : Project.GetProjectParamsRequest) :
  Forall (fun c => ProjectFacts.callNamespace c = namespaceID)
         (Project.GetProjectActivity Format s namespaceID tzOffset).1
  /\ Forall (fun c => ProjectFacts.callNamespace c = namespaceID)
            (Project.GetProjectParams Normalise Validate s namespaceID req).1.
Proof.
  split.
  - unfold Project.GetProjectActivity, Project.perform, Project.orFail, Project.bind, Project.ret.
    destruct (Project.runRepository_GetByNamespaceID s namespaceID); simpl;
      [|repeat constructor].
    destruct (Project.experimentRepository_GetCountOfActiveExperiments s namespaceID); simpl;
      repeat constructor.
  - unfold Project.GetProjectParams. cbv zeta.
    destruct (Validate (Normalise req)); [constructor|].
    destruct (Project.ExcludeParams (Normalise req)),
      (Project.wantsMetrics (Normalise req));
      unfold Project.bind, Project.orFail, Project.perform, Project.ret; simpl;
      destruct (Project.paramRepository_GetParamKeysByParameters s namespaceID
                  (Project.ExperimentNames (Normalise req)));
      destruct (Project.tagRepository_GetTagKeysByParameters s namespaceID
                  (Project.ExperimentNames (Normalise req)));
      destruct (Project.metricRepository_GetMetricKeysAndContextsByExperiments s namespaceID
                  (Project.ExperimentNames (Normalise req)));
      simpl; repeat constructor.
Qed.

Ltac split_log Hlog l1 :=
  destruct l1 as [|? [|? [|? [|? ?]]]]; simpl in Hlog; simplify_eq/=.

(** X12: for a request that passes validation [GetProjectParams] makes
    its fetches in a fixed order (param keys, tag keys, metrics, each only
    if requested) and stops at the first one that fails: the calls made
    are an initial part of that plan, every call but the last one made
    succeeded, the plan is cut short only after a failed call, and a
    result is returned only when the whole plan was carried out. *)
Theorem GetProjectParams_stops_at_first_failure
  (Normalise : Project.GetProjectParamsRequest -> Project.GetProjectParamsRequest)
  (Validate : Project.GetProjectParamsRequest -> option Go.error)
  (s : Project.Service) (namespaceID : N) (req : Project.GetProjectParamsRequest)
  (Hvalid : Validate (Normalise req) = None) :
  let log := (Project.GetProjectParams Normalise Validate s namespaceID req).1 in
  let res := (Project.GetProjectParams Normalise Validate s namespaceID req).2 in
  exists rest,
    ProjectFacts.plannedFetches namespaceID (Normalise req) = log ++ rest
    /\ (forall pp, res = Go.Ok pp -> rest = [])
    /\ (rest <> [] -> exists l c, log = l ++ [c] /\ Project.callFails s c = true)
    /\ (forall l1 c l2, log = l1 ++ c :: l2 -> l2 <> [] -> Project.callFails s c = false).
Proof.
  intros log res. subst log res.
  unfold Project.GetProjectParams, ProjectFacts.plannedFetches. cbv zeta. rewrite Hvalid.
  set (req' := Normalise req). clearbody req'. clear Hvalid.
  destruct (Project.ExcludeParams req') eqn:Hex;
    destruct (Project.wantsMetrics req') eqn:Hw;
    unfold Project.bind, Project.orFail, Project.perform, Project.ret; simpl;
    destruct (Project.paramRepository_GetParamKeysByParameters s namespaceID
                (Project.ExperimentNames req')) as [pk|pe] eqn:Hp;
    destruct (Project.tagRepository_GetTagKeysByParameters s namespaceID
                (Project.ExperimentNames req')) as [tk|te] eqn:Ht;
    destruct (Project.metricRepository_GetMetricKeysAndContextsByExperiments s namespaceID
                (Project.ExperimentNames req')) as [mk|me] eqn:Hmk;
    simpl;
    eexists; (split; [simpl; reflexivity|]);
    (split; [intros pp Hpp; try discriminate Hpp; reflexivity|]);
    (split;
     [ intros Hrest; try (exfalso; apply Hrest; reflexivity);
       first [ exists [], (Project.ParamGetParamKeysByParameters namespaceID
                             (Project.ExperimentNames req'));
               split; [reflexivity|]; simpl; unfold Go.is_err, Go.is_ok; rewrite Hp; reflexivity
             | eexists [_], _;
               split; [reflexivity|]; simpl; unfold Go.is_err, Go.is_ok; rewrite Ht; reflexivity ]
     | intros l1 c l2 Hlog Hne; split_log Hlog l1;
       simpl; unfold Go.is_err, Go.is_ok; rewrite ?Hp, ?Ht, ?Hmk; reflexivity ]).
Qed.

Lemma GetProjectParams_stops_at_first_failure_witness :
  exists rest,
    ProjectFacts.plannedFetches 1%N (keepRequest fullRequest)
    = (Project.GetProjectParams keepRequest acceptRequest tagDownService 1%N fullRequest).1
      ++ rest
    /\ rest <> [].
Proof.
  destruct (GetProjectParams_stops_at_first_failure keepRequest acceptRequest tagDownService
              1%N fullRequest eq_refl) as (rest & Hplan & _).
  exists rest. split; [exact Hplan|].
  intros ->. vm_compute in Hplan. discriminate.
Defined.

Example GetProjectParams_tag_failure :
  Project.GetProjectParams keepRequest acceptRequest tagDownService 1%N fullRequest
  = ([Project.ParamGetParamKeysByParameters 1%N ["exp1"];
      Project.TagGetTagKeysByParameters 1%N ["exp1"]],
     Go.Err (api.NewInternalError "error getting tag keys: timeout")).
Proof. reflexivity. Qed.

(** ** Server start-up: which failures are fatal *)

Section StartupFacts.

Import server.

Lemma check_err (msg : string) (o : option Go.error) :
  Go.is_ok (check msg o) = true <-> o = None.
Proof. destruct o; simpl; split; intros; congruence. Qed.

Lemma createApp_succeeds_iff (config : Config) (env : Env) :
  Go.is_ok (createApp config env) = true <->
  NewNamespaceListener env = None
  /\ Go.is_ok (loadNamespaces env) = true
  /\ Go.is_ok (loadRoles env) = true
  /\ (auth.IsAuthTypeOIDC (Auth config) = true -> Go.is_ok (NewOIDCClient env) = true)
  /\ adminRouterInit env = None
  /\ chooserRouterInit env = None.
Proof.
  unfold createApp.
  destruct (NewNamespaceListener env), (loadNamespaces env), (loadRoles env),
    (auth.IsAuthTypeOIDC (Auth config)), (auth.IsAuthTypeUser (Auth config)),
    (NewOIDCClient env), (adminRouterInit env), (chooserRouterInit env);
    simpl; split; intros; try discriminate; try tauto;
    repeat match goal with
           | H : _ /\ _ |- _ => destruct H
           end;
    try discriminate;
    try match goal with
        | H : true = true -> false = true |- _ => specialize (H eq_refl); discriminate
        end;
    repeat split; auto; discriminate.
Qed.

End StartupFacts.

(** X13: [createDBProvider] succeeds exactly when the connection, the
    migration and the three default records succeed, and the reset too if
    DatabaseReset is set; a reset that would fail does no harm when it is
    not asked for.  A failed connection is reported as "error connecting
    to DB" whatever the later steps would do. *)
Theorem createDBProvider_succeeds_iff (config : server.Config) (env : server.Env) :
  (server.createDBProvider config env = Go.Ok tt <->
   server.NewDBProvider env = None
   /\ (server.DatabaseReset config = true -> server.Reset env = None)
   /\ server.CheckAndMigrateDB env = None
   /\ server.CreateDefaultNamespace env = None
   /\ server.CreateDefaultExperiment env = None
   /\ server.CreateDefaultMetricContext env = None)
  /\ (forall e, server.NewDBProvider env = Some e ->
        server.createDBProvider config env = Go.Err (Go.Wrap e "error connecting to DB")).
Proof.
  unfold server.createDBProvider. split.
  - destruct (server.NewDBProvider env), (server.DatabaseReset config), (server.Reset env),
      (server.CheckAndMigrateDB env), (server.CreateDefaultNamespace env),
      (server.CreateDefaultExperiment env), (server.CreateDefaultMetricContext env);
      simpl; split; intros H; try discriminate; try tauto;
      repeat match goal with
             | H : _ /\ _ |- _ => destruct H
             end;
      try discriminate;
      try match goal with
          | H : true = true -> Some _ = None |- _ => specialize (H eq_refl); discriminate
          end;
      repeat split; auto; discriminate.
  - intros e He. rewrite He. reflexivity.
Qed.

Lemma createDBProvider_succeeds_iff_witness :
  server.createDBProvider userConfig noOIDCEnv = Go.Ok tt.
Proof.
  apply (createDBProvider_succeeds_iff userConfig noOIDCEnv).
  repeat split; try reflexivity. discriminate.
Defined.

(** X14: [NewServer] returns a server exactly when the artifact storage
    factory, the database provider, the notification listener, both
    initial cache loads and the admin and chooser routers succeed, and the
    OIDC client too when the OIDC scheme is selected; outside that scheme
    an unreachable OIDC provider does not stop the server. *)
Theorem NewServer_succeeds_iff (config : server.Config) (env : server.Env) :
  Go.is_ok (server.NewServer config env) = true <->
  server.NewArtifactStorageFactory env = None
  /\ server.createDBProvider config env = Go.Ok tt
  /\ server.NewNamespaceListener env = None
  /\ Go.is_ok (server.loadNamespaces env) = true
  /\ Go.is_ok (server.loadRoles env) = true
  /\ (auth.IsAuthTypeOIDC (server.Auth config) = true ->
      Go.is_ok (server.NewOIDCClient env) = true)
  /\ server.adminRouterInit env = None
  /\ server.chooserRouterInit env = None.
Proof.
  rewrite <- createApp_succeeds_iff. unfold server.NewServer.
  destruct (server.NewArtifactStorageFactory env); simpl.
  { split; [discriminate | intros [H _]; discriminate]. }
  destruct (server.createDBProvider config env) as [[]|e]; simpl.
  - destruct (server.createApp config env); simpl; split; intros; try tauto;
      repeat match goal with H : _ /\ _ |- _ => destruct H end; auto; discriminate.
  - split; [discriminate | intros (_ & H & _); discriminate].
Qed.

Lemma NewServer_succeeds_iff_witness :
  Go.is_ok (server.NewServer userConfig noOIDCEnv) = true.
Proof.
  apply (NewServer_succeeds_iff userConfig noOIDCEnv).
  repeat split; try reflexivity. discriminate.
Defined.

Example NewServer_oidc_unreachable :
  server.NewServer oidcConfig noOIDCEnv
  = Go.Err (Go.Wrap (Go.Wrap (Go.Opaque "issuer unreachable") "error creating OIDC client")
              "error creating application").
Proof. reflexivity. Qed.

(** ** The stack [createApp] registers *)

Section StackFacts.

Import server.

Lemma gate_accepts (u p a b : string) :
  bool_decide ((u, p) ∈ [(a, b)]) = bool_decide (u = a /\ p = b).
Proof.
  apply bool_decide_ext. rewrite list_elem_of_singleton. split.
  - intros H. inversion H. auto.
  - intros [-> ->]. reflexivity.
Qed.

Lemma sharedBasicAuth_spec (a : auth.Config) :
  sharedBasicAuth a = true <-> auth.AuthUsername a <> "" /\ auth.AuthPassword a <> "".
Proof.
  unfold sharedBasicAuth. rewrite andb_true_iff, !negb_true_iff, !bool_decide_eq_false.
  reflexivity.
Qed.

End StackFacts.

(** X15: the shared Basic Auth gate is attached exactly when both the
    username and the password are non-empty, and then with that single
    credential; a username without a password (or the reverse) attaches
    no gate.  CORS is attached exactly in development mode. *)
Theorem shared_gate_presence
  (config : server.Config) (env : server.Env) (app : server.App)
  (Happ : server.createApp config env = Go.Ok app) :
  (forall users,
     In (server.BasicAuth users) (server.stack app) <->
     users = [(auth.AuthUsername (server.Auth config), auth.AuthPassword (server.Auth config))]
     /\ auth.AuthUsername (server.Auth config) <> ""
     /\ auth.AuthPassword (server.Auth config) <> "")
  /\ (In server.CORS (server.stack app) <-> server.DevMode config = true).
Proof.
  pose proof (createApp_ok config env app Happ) as (_ & _ & _ & _ & Hstack).
  rewrite Hstack. pose proof (sharedBasicAuth_spec (server.Auth config)) as Hspec.
  split.
  - intros users. split.
    + intros Hin. apply shared_gate_in_gateSteps in Hin. revert Hin.
      unfold server.gateSteps.
      destruct (server.sharedBasicAuth (server.Auth config));
        destruct (server.DevMode config); simpl; intros Hin;
        repeat (destruct Hin as [Hin|Hin]; try discriminate Hin); try contradiction;
        inversion Hin; (split; [reflexivity | apply Hspec; reflexivity]).
    + intros (-> & Hu & Hp). apply in_or_app. left. unfold server.gateSteps.
      assert (Hs : server.sharedBasicAuth (server.Auth config) = true) by (apply Hspec; auto).
      rewrite Hs. apply in_or_app. right. left. reflexivity.
  - unfold server.gateSteps, server.identitySteps, server.serviceSteps.
    destruct (server.DevMode config), (server.sharedBasicAuth (server.Auth config)),
      (auth.IsAuthTypeOIDC (server.Auth config)), (auth.IsAuthTypeUser (server.Auth config)),
      (server.NewOIDCClient env); simpl; split; intros H; try reflexivity; auto;
      try discriminate H;
      repeat (destruct H as [H|H]; try discriminate H); try contradiction.
Qed.

Lemma shared_gate_presence_witness :
  ~ In (server.BasicAuth [("admin", "")])
       (server.gateSteps halfGatedConfig ++ [server.NamespaceMiddleware]
        ++ server.identitySteps halfGatedConfig healthyEnv
        ++ server.serviceSteps halfGatedConfig).
Proof.
  pose proof (shared_gate_presence halfGatedConfig healthyEnv _ eq_refl) as [H _].
  intros Hin. apply H in Hin. destruct Hin as (_ & _ & Hp). apply Hp. reflexivity.
Defined.

(** X16: the stack holds at most one step that resolves a user: the OIDC
    middleware when the OIDC scheme is selected (even if the per-user
    scheme is selected as well), otherwise the per-user middleware with
    the parsed permissions when that scheme is selected, otherwise none. *)
Theorem identity_step_selection
  (config : server.Config) (env : server.Env) (app : server.App)
  (Happ : server.createApp config env = Go.Ok app) :
  List.filter server.resolvesUser (server.stack app)
  = if auth.IsAuthTypeOIDC (server.Auth config) then
      match server.NewOIDCClient env with
      | Go.Ok client => [server.OIDCMiddleware client]
      | Go.Err _ => []
      end
    else if auth.IsAuthTypeUser (server.Auth config) then
      [server.BasicAuthMiddleware (auth.AuthParsedUserPermissions (server.Auth config))]
    else [].
Proof.
  pose proof (createApp_ok config env app Happ) as (_ & _ & _ & _ & Hstack).
  rewrite Hstack.
  unfold server.gateSteps, server.identitySteps, server.serviceSteps.
  destruct (server.DevMode config), (server.sharedBasicAuth (server.Auth config)),
    (auth.IsAuthTypeOIDC (server.Auth config)), (auth.IsAuthTypeUser (server.Auth config)),
    (server.NewOIDCClient env); reflexivity.
Qed.

Lemma identity_step_selection_witness :
  exists app,
    server.createApp bothSchemesConfig healthyEnv = Go.Ok app
    /\ List.filter server.resolvesUser (server.stack app)
       = [server.OIDCMiddleware testOIDCClient].
Proof.
  eexists. split; [reflexivity|].
  apply (identity_step_selection bothSchemesConfig healthyEnv _ eq_refl).
Defined.

(** X17: the cookie route is registered after the shared gate and before
    the namespace and user steps: a request for it is redirected to "/"
    with the token set as the access_token cookie whenever it passes the
    shared gate (or there is none), whatever the identity scheme and the
    caches, and is answered 401 otherwise. *)
Theorem set_cookie_route
  (config : server.Config) (env : server.Env) (app : server.App)
  (caches : middleware.Caches) (token : string) (cr : middleware.Credentials)
  (Happ : server.createApp config env = Go.Ok app) :
  server.serve app caches (fiberapp.cookieRequest token cr)
  = if server.passesGate (server.Auth config) cr
    then middleware.Redirected "/" "access_token" token
    else middleware.Unauthorized.
Proof.
  pose proof (createApp_ok config env app Happ) as (_ & _ & _ & _ & Hstack).
  unfold server.serve. rewrite Hstack.
  unfold server.gateSteps, server.passesGate.
  destruct (server.DevMode config), (server.sharedBasicAuth (server.Auth config)); simpl;
    try reflexivity;
    unfold middleware.basicauth; simpl;
    destruct cr as [|u p|tok]; simpl; try reflexivity;
    rewrite gate_accepts;
    destruct (bool_decide (u = auth.AuthUsername (server.Auth config)
                           /\ p = auth.AuthPassword (server.Auth config))); reflexivity.
Qed.

Lemma set_cookie_route_witness :
  server.serve userApp testCaches (fiberapp.cookieRequest "t0k3n" middleware.NoCredentials)
  = middleware.Redirected "/" "access_token" "t0k3n"
  /\ server.serve gatedApp testCaches (fiberapp.cookieRequest "t0k3n" middleware.NoCredentials)
     = middleware.Unauthorized.
Proof.
  split.
  - apply (set_cookie_route userConfig healthyEnv userApp testCaches "t0k3n"
             middleware.NoCredentials eq_refl).
  - apply (set_cookie_route gatedConfig healthyEnv gatedApp testCaches "t0k3n"
             middleware.NoCredentials eq_refl).
Defined.

(** ** Path tests of the fiber configuration *)

Section PathFacts.

Lemma substring_zero (s : string) : String.substring 0 0 s = "".
Proof. destruct s; reflexivity. Qed.

Lemma length_append (s1 s2 : string) :
  String.length (s1 +:+ s2) = (String.length s1 + String.length s2)%nat.
Proof. induction s1 as [|c s1 IH]; simpl; [reflexivity | rewrite IH; reflexivity]. Qed.

Lemma substring_whole (s : string) : String.substring 0 (String.length s) s = s.
Proof. induction s as [|c s IH]; simpl; [reflexivity | rewrite IH; reflexivity]. Qed.

Lemma substring_append_l (p s : string) :
  String.substring 0 (String.length p) (p +:+ s) = p.
Proof.
  induction p as [|c p IH]; simpl.
  - apply substring_zero.
  - rewrite IH. reflexivity.
Qed.

Lemma substring_append_r (p s : string) (n : nat) :
  String.substring (String.length p) n (p +:+ s) = String.substring 0 n s.
Proof. induction p as [|c p IH]; simpl; [reflexivity | exact IH]. Qed.

Lemma substring_prefix_inv (p : string) :
  forall s, (String.length p <= String.length s)%nat ->
            String.substring 0 (String.length p) s = p ->
            exists rest, s = p +:+ rest.
Proof.
  induction p as [|c p IH]; intros s Hlen Hsub.
  - exists s. reflexivity.
  - destruct s as [|c' s]; simpl in *; [lia|].
    injection Hsub as Hc Hrest. subst c'.
    destruct (IH s) as [rest Hs]; [lia | exact Hrest |].
    exists rest. rewrite Hs at 1. reflexivity.
Qed.

Lemma substring_split (n : nat) :
  forall s, (n <= String.length s)%nat ->
            s = String.substring 0 n s +:+ String.substring n (String.length s - n) s.
Proof.
  induction n as [|n IH]; intros s Hlen.
  - rewrite substring_zero, Nat.sub_0_r, substring_whole. reflexivity.
  - destruct s as [|c s]; simpl in *; [lia|].
    change (String c s
            = String c (String.substring 0 n s
                        +:+ String.substring n (String.length s - n) s)).
    f_equal. apply IH. lia.
Qed.

Lemma HasPrefix_spec (s prefix : string) :
  gostrings.HasPrefix s prefix = true <-> exists rest, s = prefix +:+ rest.
Proof.
  unfold gostrings.HasPrefix. rewrite andb_true_iff, Nat.leb_le, String.eqb_eq. split.
  - intros [Hlen Hsub]. exact (substring_prefix_inv prefix s Hlen Hsub).
  - intros [rest ->]. rewrite length_append, substring_append_l. split; [lia | reflexivity].
Qed.

Lemma HasSuffix_spec (s suffix : string) :
  gostrings.HasSuffix s suffix = true <-> exists front, s = front +:+ suffix.
Proof.
  unfold gostrings.HasSuffix. rewrite andb_true_iff, Nat.leb_le, String.eqb_eq. split.
  - intros [Hlen Hsub].
    exists (String.substring 0 (String.length s - String.length suffix) s).
    pose proof (substring_split (String.length s - String.length suffix) s ltac:(lia))
      as Hsplit.
    replace (String.length s - (String.length s - String.length suffix))%nat
      with (String.length suffix) in Hsplit by lia.
    rewrite Hsub in Hsplit. exact Hsplit.
  - intros [front ->]. rewrite length_append.
    replace (String.length front + String.length suffix - String.length suffix)%nat
      with (String.length front) by lia.
    rewrite substring_append_r, substring_whole. split; [lia | reflexivity].
Qed.

Lemma HasPrefix_false (s prefix : string) :
  (forall rest, s <> prefix +:+ rest) -> gostrings.HasPrefix s prefix = false.
Proof.
  intros Hno. apply not_true_is_false. intros Hp.
  apply HasPrefix_spec in Hp. destruct Hp as [rest ->]. exact (Hno rest eq_refl).
Qed.

End PathFacts.

(** X18: the error handler is chosen by the path alone: the Aim handler
    exactly for the paths that start with "/aim", the MLflow handler
    exactly for the paths that start with "/api/2.0/mlflow/",
    "/ajax-api/2.0/mlflow/" or "/mlflow/ajax-api/2.0/mlflow/", and fiber's
    default handler for every other path; no path falls under both. *)
Theorem ErrorHandler_by_prefix (p : string) :
  (fiberapp.ErrorHandler p = fiberapp.Aim2ErrorHandler <-> exists rest, p = "/aim" +:+ rest)
  /\ (fiberapp.ErrorHandler p = fiberapp.MlflowErrorHandler <->
      exists rest, p = "/api/2.0/mlflow/" +:+ rest
                   \/ p = "/ajax-api/2.0/mlflow/" +:+ rest
                   \/ p = "/mlflow/ajax-api/2.0/mlflow/" +:+ rest).
Proof.
  unfold fiberapp.ErrorHandler.
  pose proof (HasPrefix_spec p "/aim") as Ha.
  pose proof (HasPrefix_spec p "/api/2.0/mlflow/") as H1.
  pose proof (HasPrefix_spec p "/ajax-api/2.0/mlflow/") as H2.
  pose proof (HasPrefix_spec p "/mlflow/ajax-api/2.0/mlflow/") as H3.
  destruct (gostrings.HasPrefix p "/aim") eqn:Ea.
  - split; [split; [intros _; apply Ha; reflexivity | reflexivity]|].
    split; [discriminate|].
    destruct (proj1 Ha eq_refl) as [r ->].
    intros [rest [H|[H|H]]]; simpl in H; discriminate H.
  - split.
    { split.
      - destruct (_ || _ || _); discriminate.
      - intros Hex. apply Ha in Hex. discriminate. }
    destruct (gostrings.HasPrefix p "/api/2.0/mlflow/") eqn:E1; simpl.
    { split; [intros _|reflexivity]. destruct (proj1 H1 eq_refl) as [r Hr]. eauto. }
    destruct (gostrings.HasPrefix p "/ajax-api/2.0/mlflow/") eqn:E2; simpl.
    { split; [intros _|reflexivity]. destruct (proj1 H2 eq_refl) as [r Hr]. eauto. }
    destruct (gostrings.HasPrefix p "/mlflow/ajax-api/2.0/mlflow/") eqn:E3; simpl.
    { split; [intros _|reflexivity]. destruct (proj1 H3 eq_refl) as [r Hr]. eauto. }
    split; [discriminate|].
    intros [rest [H|[H|H]]].
    + assert (Ht : false = true) by (apply H1; eauto). discriminate.
    + assert (Ht : false = true) by (apply H2; eauto). discriminate.
    + assert (Ht : false = true) by (apply H3; eauto). discriminate.
Qed.

Example ErrorHandler_samples :
  fiberapp.ErrorHandler "/aim/api/runs/search/run" = fiberapp.Aim2ErrorHandler
  /\ fiberapp.ErrorHandler "/mlflow/ajax-api/2.0/mlflow/runs/get" = fiberapp.MlflowErrorHandler
  /\ fiberapp.ErrorHandler "/api/2.0/mlflow" = fiberapp.DefaultErrorHandler
  /\ fiberapp.ErrorHandler "/admin/namespaces" = fiberapp.DefaultErrorHandler.
Proof. repeat split; reflexivity. Qed.

(** Compression is skipped exactly for the paths that end in
    "/metrics/get-histories". *)
Theorem compress_skipped_for_histories (path : string) :
  fiberapp.compressNext path = true <->
  exists front, path = front +:+ "/metrics/get-histories".
Proof. unfold fiberapp.compressNext. apply HasSuffix_spec. Qed.

Example compressNext_samples :
  fiberapp.compressNext "/api/2.0/mlflow/metrics/get-histories" = true
  /\ fiberapp.compressNext "/api/2.0/mlflow/metrics/get-history" = false
  /\ fiberapp.compressNext "/metrics/get-histories/" = false
  /\ fiberapp.compressNext "" = false.
Proof. repeat split; reflexivity. Qed.

(** ** Tag repository: the tag key query *)

Section TagKeyFacts.

Import TagKeys.

Lemma selected_spec (names : list string) (r : RunRow) (e : ExperimentRow) :
  selected names r e = true <->
  lifecycle_stage r = Project.LifecycleStageActive /\ (names = [] \/ name e ∈ names).
Proof.
  unfold selected. rewrite andb_true_iff, bool_decide_eq_true.
  destruct (decide (length names = 0%nat)) as [Hz|Hnz].
  - apply length_zero_iff_nil in Hz. subst names. intuition.
  - rewrite bool_decide_eq_true. split.
    + intros [Ha Hn]. auto.
    + intros [Ha [->|Hn]]; [simpl in Hnz; lia | auto].
Qed.

Lemma rows_spec (db : DB) (ns : N) (names : list string)
  (t : TagRepository.Tag) (r : RunRow) (e : ExperimentRow) :
  In (t, r, e) (rows db ns names) <->
  In t (tags db) /\ In r (runs db) /\ In e (experiments db)
  /\ run_uuid r = TagRepository.RunID t
  /\ experiment_id e = run_experiment_id r
  /\ namespace_id e = ns
  /\ lifecycle_stage r = Project.LifecycleStageActive
  /\ (names = [] \/ name e ∈ names).
Proof.
  unfold rows, runsOf, experimentsOf. rewrite in_flat_map. split.
  - intros (t' & Ht & Hin). apply in_flat_map in Hin. destruct Hin as (r' & Hr & Hin).
    apply in_flat_map in Hin. destruct Hin as (e' & He & Hin).
    apply filter_In in Hr. destruct Hr as [Hr Hru]. apply bool_decide_eq_true in Hru.
    apply filter_In in He. destruct He as [He Hee]. apply andb_true_iff in Hee.
    destruct Hee as [Hid Hns]. apply bool_decide_eq_true in Hid, Hns.
    destruct (selected names r' e') eqn:Hsel; simpl in Hin; [|contradiction].
    destruct Hin as [Heq|[]]. inversion Heq. subst t' r' e'.
    apply selected_spec in Hsel. tauto.
  - intros (Ht & Hr & He & Hru & Hid & Hns & Hact & Hnames).
    exists t. split; [exact Ht|]. apply in_flat_map. exists r. split.
    { apply filter_In. split; [exact Hr|]. apply bool_decide_eq_true. exact Hru. }
    apply in_flat_map. exists e. split.
    { apply filter_In. split; [exact He|]. apply andb_true_iff.
      split; apply bool_decide_eq_true; assumption. }
    assert (Hsel : selected names r e = true) by (apply selected_spec; auto).
    rewrite Hsel. left. reflexivity.
Qed.

End TagKeyFacts.

(** X20: [GetTagKeysByParameters] returns a key exactly when it is the
    key of a tag whose run is active and belongs to an experiment of the
    given namespace, restricted to the named experiments when names are
    given; tags of deleted runs and of other namespaces never contribute.
    A failing query is returned wrapped as "error getting tag keys by
    parameters". *)
Theorem GetTagKeysByParameters_keys
  (db : TagKeys.DB) (namespaceID : N) (experimentNames : list string) :
  match TagKeys.fault db with
  | Some err =>
      TagKeys.GetTagKeysByParameters db namespaceID experimentNames
      = Go.Err (Go.Wrap err "error getting tag keys by parameters")
  | None =>
      exists keys,
        TagKeys.GetTagKeysByParameters db namespaceID experimentNames = Go.Ok keys
        /\ forall k, In k keys <->
             exists t, In t (TagKeys.tags db) /\ TagRepository.Key t = k
                       /\ TagKeys.qualifies db namespaceID experimentNames t
  end.
Proof.
  unfold TagKeys.GetTagKeysByParameters.
  destruct (TagKeys.fault db) as [err|]; [reflexivity|].
  eexists. split; [reflexivity|]. intros k. rewrite in_map_iff. split.
  - intros ([[t r] e] & Hk & Hin). simpl in Hk. apply rows_spec in Hin.
    exists t. split; [tauto|]. split; [exact Hk|]. exists r, e. tauto.
  - intros (t & Ht & Hk & r & e & Hr & He & Hrest). exists (t, r, e). split; [exact Hk|].
    apply rows_spec. tauto.
Qed.

(** X21: an empty list of experiment names means no restriction, not an
    empty answer: every key returned for a list of names is also returned
    for the empty list. *)
Theorem GetTagKeysByParameters_names_narrow
  (db : TagKeys.DB) (namespaceID : N) (experimentNames : list string)
  (keys : list string)
  (Hkeys : TagKeys.GetTagKeysByParameters db namespaceID experimentNames = Go.Ok keys) :
  exists allKeys,
    TagKeys.GetTagKeysByParameters db namespaceID [] = Go.Ok allKeys
    /\ forall k, In k keys -> In k allKeys.
Proof.
  revert Hkeys. unfold TagKeys.GetTagKeysByParameters.
  destruct (TagKeys.fault db) as [err|]; [discriminate|].
  intros Hkeys. inversion Hkeys. subst keys.
  eexists. split; [reflexivity|]. intros k. rewrite !in_map_iff.
  intros ([[t r] e] & Hk & Hin). exists (t, r, e). split; [exact Hk|].
  apply rows_spec in Hin. apply rows_spec. intuition.
Qed.

Lemma GetTagKeysByParameters_names_narrow_witness :
  exists allKeys,
    TagKeys.GetTagKeysByParameters tagKeysDB 1%N [] = Go.Ok allKeys
    /\ forall k, In k ["team"; "stage"] -> In k allKeys.
Proof.
  apply (GetTagKeysByParameters_names_narrow tagKeysDB 1%N ["exp-a"] ["team"; "stage"]).
  reflexivity.
Defined.

(** The query on the sample tables: the deleted run and the other
    namespace contribute nothing; keys are not de-duplicated across runs. *)
Example GetTagKeysByParameters_samples :
  TagKeys.GetTagKeysByParameters tagKeysDB 1%N [] = Go.Ok ["team"; "stage"]
  /\ TagKeys.GetTagKeysByParameters tagKeysDB 2%N [] = Go.Ok ["owner"]
  /\ TagKeys.GetTagKeysByParameters tagKeysDB 1%N ["exp-b"] = Go.Ok []
  /\ TagKeys.GetTagKeysByParameters tagKeysDB 3%N [] = Go.Ok [].
Proof. repeat split; vm_compute; reflexivity. Qed.
